(** * context_chat_backend: the cache-prune script and the one-shot query chain

    A shallow embedding of
    - [scripts/prune_r2r_upsert_cache.py] (module [Prune]) and
    - [context_chat_backend/chain/one_shot.py] (module [OneShot]),
    together with the prompt builder the chain delegates to (module
    [PromptBuilder]), followed by the properties of the specification.

    Python text is modelled by [string] (ASCII text), JSON documents by the
    inductive [json], dictionaries by association lists in insertion order
    (one binding per key, as [json.load] builds them), exceptions by a
    result type, and the effects of the script (files, console, remote
    calls) by a state monad over an explicit [world]. The remote service,
    the clock, the vector store, the pruning helper and the language model
    are inputs of the functions that use them. Left out: the parsing of the
    command line, the HTTP timeout (a float handed to the client) and the
    debug log line of the chain. *)

From Stdlib Require Import ZArith Ascii String List Lia.
From stdpp Require Import base tactics option list strings gmap sets pretty.

Set Warnings "-register-all".

(** ** Python values *)

Module Py.

(** [str.isspace] on ASCII: TAB..CR, FS..US and the space. *)
Definition is_space (c : ascii) : bool :=
  let n := nat_of_ascii c in
  ((9 <=? n)%nat && (n <=? 13)%nat) || ((28 <=? n)%nat && (n <=? 32)%nat).

Fixpoint lstrip_by (p : ascii → bool) (s : string) : string :=
  match s with
  | EmptyString => EmptyString
  | String c s' => if p c then lstrip_by p s' else s
  end.

Fixpoint rstrip_by (p : ascii → bool) (s : string) : string :=
  match s with
  | EmptyString => EmptyString
  | String c s' =>
      match rstrip_by p s' with
      | EmptyString => if p c then EmptyString else String c EmptyString
      | r => String c r
      end
  end.

(** [s.strip()] *)
Definition strip (s : string) : string :=
  rstrip_by is_space (lstrip_by is_space s).

(** [s.rstrip(ch)] for a one-character argument. *)
Definition rstrip_char (ch : ascii) (s : string) : string :=
  rstrip_by (Ascii.eqb ch) s.

Definition lower_char (c : ascii) : ascii :=
  let n := nat_of_ascii c in
  if (65 <=? n)%nat && (n <=? 90)%nat then ascii_of_nat (n + 32) else c.

(** [s.lower()] *)
Fixpoint lower (s : string) : string :=
  match s with
  | EmptyString => EmptyString
  | String c s' => String (lower_char c) (lower s')
  end.

Fixpoint all_chars (p : ascii → bool) (s : string) : bool :=
  match s with
  | EmptyString => true
  | String c s' => p c && all_chars p s'
  end.

Fixpoint has_char (ch : ascii) (s : string) : bool :=
  match s with
  | EmptyString => false
  | String c s' => Ascii.eqb ch c || has_char ch s'
  end.

Fixpoint join (sep : string) (l : list string) : string :=
  match l with
  | [] => ""
  | [x] => x
  | x :: l' => x +:+ sep +:+ join sep l'
  end.

(** What [json.load] produces; numbers are the integers. *)
Inductive json : Type :=
| JNull
| JBool (b : bool)
| JInt (n : Z)
| JStr (s : string)
| JArr (items : list json)
| JObj (fields : list (string * json)).

Definition is_empty (s : string) : bool :=
  match s with EmptyString => true | _ => false end.

(** Truth value of a Python object. *)
Definition truthy (v : json) : bool :=
  match v with
  | JNull => false
  | JBool b => b
  | JInt n => negb (n =? 0)%Z
  | JStr s => negb (is_empty s)
  | JArr items => match items with [] => false | _ => true end
  | JObj fields => match fields with [] => false | _ => true end
  end.

(** [a or b] *)
Definition or_ (a b : json) : json := if truthy a then a else b.

Fixpoint assoc (k : string) (fields : list (string * json)) : option json :=
  match fields with
  | [] => None
  | (k', v) :: rest => if String.eqb k k' then Some v else assoc k rest
  end.

(** [d.get(k)] on a dict: [None] when the key is missing. *)
Definition dict_get (fields : list (string * json)) (k : string) : json :=
  default JNull (assoc k fields).

Definition squote : ascii := "039"%char.
Definition dquote : ascii := "034"%char.
Definition backslash : ascii := "092"%char.

Definition hex_digit (n : nat) : ascii :=
  default "0"%char (String.get n "0123456789abcdef").

Definition repr_char (quote c : ascii) : string :=
  let n := nat_of_ascii c in
  if Ascii.eqb c quote || Ascii.eqb c backslash then String backslash (String c "")
  else if (n =? 9)%nat then String backslash "t"
  else if (n =? 10)%nat then String backslash "n"
  else if (n =? 13)%nat then String backslash "r"
  else if (n <? 32)%nat || (n =? 127)%nat then
    String backslash (String "x" (String (hex_digit (n / 16)) (String (hex_digit (n mod 16)) "")))
  else String c "".

Fixpoint repr_chars (quote : ascii) (s : string) : string :=
  match s with
  | EmptyString => EmptyString
  | String c s' => repr_char quote c +:+ repr_chars quote s'
  end.

(** [repr] of a [str]: single quotes unless the text has one and no
    double quote. *)
Definition repr_str (s : string) : string :=
  let quote := if has_char squote s && negb (has_char dquote s) then dquote else squote in
  String quote (repr_chars quote s) +:+ String quote "".

Fixpoint repr (v : json) : string :=
  match v with
  | JNull => "None"
  | JBool true => "True"
  | JBool false => "False"
  | JInt n => pretty n
  | JStr s => repr_str s
  | JArr items => "[" +:+ join ", " (List.map repr items) +:+ "]"
  | JObj fields =>
      "{" +:+ join ", " (List.map (λ kv, repr_str (fst kv) +:+ ": " +:+ repr (snd kv)) fields) +:+ "}"
  end.

(** [str(v)] *)
Definition str (v : json) : string :=
  match v with
  | JStr s => s
  | _ => repr v
  end.

(** The exceptions that occur in the two programs. *)
Inductive exn : Type :=
| AttributeError
| JSONDecodeError
| ValueError (msg : string)
| ContextException (msg : string)
| OtherError (name : string).

Inductive result (A : Type) : Type :=
| Return (a : A)
| Raise (e : exn).
Global Arguments Return {A} a.
Global Arguments Raise {A} e.

End Py.
Export Py.

(** ** scripts/prune_r2r_upsert_cache.py *)

Module Prune.

(** A file holds either text that [json.load] rejects or a JSON document. *)
Inductive file : Type :=
| Malformed (raw : string)
| JsonDoc (doc : json).

Inductive fs_op : Type :=
| Copy (src dst : string)       (* shutil.copy2(src, dst) *)
| WriteFile (path : string)     (* open(path, "w") and json.dump into it *)
| Replace (src dst : string).   (* Path(src).replace(dst) *)

(** [httpx.Client(base_url=..., headers=...)] *)
Record client : Type := {
  base_url : string;
  headers : list (string * string);
}.

Record request : Type := {
  req_client : client;
  req_path : string;
}.

(** What [client.get] does: it raises [httpx.HTTPError] (whose [response]
    attribute, when there is one, carries a status code) or returns a
    response with a status code and a body; [None] is a body that
    [r.json()] rejects. *)
Inductive http_outcome : Type :=
| HTTPError (response_status : option Z)
| Response (status_code : Z) (body : option json).

(** The remote service, answering each request in a fixed way. *)
Definition network : Type := request → http_outcome.

Record world : Type := {
  files : gmap string file;
  fs_log : list fs_op;
  requests : list request;
  stdout : list string;
  stderr : list string;
}.

(** State and exceptions. *)
Definition M (A : Type) : Type := world → result A * world.

Definition raise {A} (e : exn) : M A := λ w, (Raise e, w).

#[global] Instance M_ret : MRet M := λ A a w, (Return a, w).
#[global] Instance M_bind : MBind M :=
  λ A B k m w, match m w with
               | (Return a, w') => k a w'
               | (Raise e, w') => (Raise e, w')
               end.

Definition to_stdout (line : string) (w : world) : world :=
  {| files := files w; fs_log := fs_log w; requests := requests w;
     stdout := stdout w ++ [line]; stderr := stderr w |}.

Definition to_stderr (line : string) (w : world) : world :=
  {| files := files w; fs_log := fs_log w; requests := requests w;
     stdout := stdout w; stderr := stderr w ++ [line] |}.

Definition sent (rq : request) (w : world) : world :=
  {| files := files w; fs_log := fs_log w; requests := requests w ++ [rq];
     stdout := stdout w; stderr := stderr w |}.

Definition set_files (fs : gmap string file) (op : fs_op) (w : world) : world :=
  {| files := fs; fs_log := fs_log w ++ [op]; requests := requests w;
     stdout := stdout w; stderr := stderr w |}.

(** [print(line)] and [print(line, file=sys.stderr)] *)
Definition print (line : string) : M unit := λ w, (Return (), to_stdout line w).
Definition eprint (line : string) : M unit := λ w, (Return (), to_stderr line w).

(** [client.get(path)] *)
Definition http_get (net : network) (c : client) (path : string) : M http_outcome :=
  λ w, let rq := {| req_client := c; req_path := path |} in (Return (net rq), sent rq w).

(** [path.exists()] *)
Definition path_exists (path : string) : M bool :=
  λ w, (Return (bool_decide (is_Some (files w !! path))), w).

Definition opt_truthy (o : option string) : bool :=
  match o with
  | Some s => negb (is_empty s)
  | None => false
  end.

Definition _headers (api_key token : option string) : list (string * string) :=
  let h := [("accept", "application/json")] in
  let h := if opt_truthy api_key then h ++ [("X-API-Key", default "" api_key)] else h in
  if opt_truthy token then h ++ [("Authorization", "Bearer " +:+ default "" token)] else h.

Definition get_doc_status (net : network) (c : client) (doc_id : string)
  : M (option string * Z) :=
  r ← http_get net c ("/v3/documents/" +:+ doc_id);
  match r with
  | HTTPError response_status => mret (None, default 0%Z response_status)
  | Response status_code body =>
      if (status_code =? 404)%Z then mret (None, 404%Z)
      else if (400 <=? status_code)%Z then mret (None, status_code)
      else
        let data :=
          match body with
          | Some (JObj top) => default (JObj []) (assoc "results" top)
          | _ => JObj []
          end in
        match data with
        | JObj d =>
            let status := or_ (dict_get d "ingestion_status") (dict_get d "status") in
            mret (match status with JNull => None | v => Some (str v) end, status_code)
        | _ => raise AttributeError
        end
  end.

(** [json.load] of the file at [path]. *)
Definition load_cache (path : string) : M json :=
  λ w, match files w !! path with
       | Some (JsonDoc doc) => (Return doc, w)
       | Some (Malformed _) => (Raise JSONDecodeError, w)
       | None => (Raise (OtherError "FileNotFoundError"), w)
       end.

(** [p.with_suffix(p.suffix + ext)]: [ext] is appended to the path. *)
Definition add_suffix (p ext : string) : string := p +:+ ext.

Definition write_json (path : string) (data : json) : M unit :=
  λ w, (Return (), set_files (<[path := JsonDoc data]> (files w)) (WriteFile path) w).

Definition replace (src dst : string) : M unit :=
  λ w, match files w !! src with
       | Some f => (Return (), set_files (<[dst := f]> (delete src (files w))) (Replace src dst) w)
       | None => (Raise (OtherError "FileNotFoundError"), w)
       end.

Definition copy2 (src dst : string) : M unit :=
  λ w, match files w !! src with
       | Some f => (Return (), set_files (<[dst := f]> (files w)) (Copy src dst) w)
       | None => (Raise (OtherError "FileNotFoundError"), w)
       end.

Definition save_cache (path : string) (data : json) : M unit :=
  let tmp := add_suffix path ".tmp" in
  write_json tmp data;;
  replace tmp path.

(** [time.localtime()] *)
Record struct_time : Type := {
  tm_year : N; tm_mon : N; tm_mday : N;
  tm_hour : N; tm_min : N; tm_sec : N;
}.

Fixpoint zeros (n : nat) : string :=
  match n with
  | O => ""
  | S n' => String "0" (zeros n')
  end.

Definition zfill (width : nat) (s : string) : string :=
  zeros (width - String.length s) +:+ s.

(** [time.strftime("%Y%m%d-%H%M%S")]; the C library prints the year
    without padding and the other fields on two digits. *)
Definition strftime (t : struct_time) : string :=
  pretty (tm_year t) +:+ zfill 2 (pretty (tm_mon t)) +:+ zfill 2 (pretty (tm_mday t))
  +:+ "-" +:+ zfill 2 (pretty (tm_hour t)) +:+ zfill 2 (pretty (tm_min t))
  +:+ zfill 2 (pretty (tm_sec t)).

(** The local variables of the scan loop of [main]. *)
Record scan_state : Type := {
  to_remove : list string;
  checked : nat;
  failed : nat;
  not_found : nat;
}.

Definition scan_init : scan_state :=
  {| to_remove := []; checked := 0; failed := 0; not_found := 0 |}.

(** [entry.get(k)]; only a dict has the method. *)
Definition entry_get (entry : json) (k : string) : M json :=
  match entry with
  | JObj fields => mret (dict_get fields k)
  | _ => raise AttributeError
  end.

(** [status and status.lower() in {"failed", "error"}] *)
Definition is_failed_status (status : option string) : bool :=
  match status with
  | Some s =>
      negb (is_empty s) && (String.eqb (lower s) "failed" || String.eqb (lower s) "error")
  | None => false
  end.

(** [str(entry.get("doc_id") or "").strip()] *)
Definition doc_id_of (v : json) : string := strip (str (or_ v (JStr ""))).

(** One iteration of the loop over [cache.items()]. *)
Definition scan_entry (net : network) (c : client) (st : scan_state)
    (digest : string) (entry : json) : M scan_state :=
  let n := S (checked st) in
  v ← entry_get entry "doc_id";
  let doc_id := doc_id_of v in
  if is_empty doc_id then
    mret {| to_remove := to_remove st ++ [digest]; checked := n;
            failed := failed st; not_found := not_found st |}
  else
    r ← get_doc_status net c doc_id;
    let '(status, http_status) := r in
    if (http_status =? 404)%Z then
      filename ← entry_get entry "filename";
      print ("- remove (404) " +:+ digest +:+ " doc_id=" +:+ doc_id
             +:+ " filename=" +:+ str filename);;
      mret {| to_remove := to_remove st ++ [digest]; checked := n;
              failed := failed st; not_found := S (not_found st) |}
    else if is_failed_status status then
      filename ← entry_get entry "filename";
      print ("- remove (ingestion_status=" +:+ default "" status +:+ ") " +:+ digest
             +:+ " doc_id=" +:+ doc_id +:+ " filename=" +:+ str filename);;
      mret {| to_remove := to_remove st ++ [digest]; checked := n;
              failed := S (failed st); not_found := not_found st |}
    else
      mret {| to_remove := to_remove st; checked := n;
              failed := failed st; not_found := not_found st |}.

(** [for digest, entry in list(cache.items()): ...] *)
Fixpoint scan (net : network) (c : client) (items : list (string * json))
    (st : scan_state) : M scan_state :=
  match items with
  | [] => mret st
  | (digest, entry) :: rest =>
      st' ← scan_entry net c st digest entry;
      scan net c rest st'
  end.

(** [cache.pop(digest, None)] *)
Definition dict_pop (digest : string) (cache : list (string * json))
  : list (string * json) :=
  List.filter (λ kv, negb (String.eqb digest (fst kv))) cache.

(** [for digest in to_remove: cache.pop(digest, None)] *)
Definition pop_all (digests : list string) (cache : list (string * json))
  : list (string * json) :=
  fold_left (λ d digest, dict_pop digest d) digests cache.

(** The parsed command line, without [--timeout]. *)
Record args : Type := {
  cache : string;
  base : string;
  api_key : option string;
  api_token : option string;
  dry_run : bool;
}.

Definition main (net : network) (now : struct_time) (a : args) : M Z :=
  let cache_path := cache a in
  present ← path_exists cache_path;
  if negb present then
    eprint ("Cache file not found: " +:+ cache_path);;
    mret 2%Z
  else
    loaded ← load_cache cache_path;
    match loaded with
    | JObj entries =>
        let c := {| base_url := rstrip_char "/" (base a);
                    headers := _headers (api_key a) (api_token a) |} in
        print ("Scanning " +:+ pretty (length entries) +:+ " cache entries against "
               +:+ base a +:+ " ...");;
        st ← scan net c entries scan_init;
        print ("Checked=" +:+ pretty (checked st) +:+ ", removing="
               +:+ pretty (length (to_remove st)) +:+ " (failed=" +:+ pretty (failed st)
               +:+ ", not_found=" +:+ pretty (not_found st) +:+ ")");;
        if dry_run a then
          print "Dry-run enabled; no changes written.";;
          mret 0%Z
        else
          match to_remove st with
          | [] =>
              print "No entries to remove.";;
              mret 0%Z
          | _ =>
              let ts := strftime now in
              let backup := add_suffix cache_path (".bak." +:+ ts) in
              copy2 cache_path backup;;
              let pruned := pop_all (to_remove st) entries in
              save_cache cache_path (JObj pruned);;
              print ("Wrote pruned cache to " +:+ cache_path +:+ " (backup at "
                     +:+ backup +:+ ")");;
              mret 0%Z
          end
    | _ =>
        eprint "Unexpected cache shape: expected a JSON object mapping digest->entry";;
        mret 2%Z
    end.

(** [raise SystemExit(main())]: the status of the process is the value
    [main] returns, and 1 when an exception leaves [main]. *)
Definition exit_status (r : result Z) : Z :=
  match r with
  | Return code => code
  | Raise _ => 1%Z
  end.

(** The world a run starts in. *)
Definition boot (fs : gmap string file) : world :=
  {| files := fs; fs_log := []; requests := []; stdout := []; stderr := [] |}.

End Prune.

(** ** context_chat_backend/chain/one_shot.py *)

Module OneShot.

(** A retrieved document: its text and its metadata. *)
Record document : Type := {
  page_content : string;
  metadata : list (string * string);
}.

Record LLMOutput : Type := {
  output : string;
  sources : list string;
}.

(** One call of [llm.invoke(prompt, stop=..., userid=...)]. *)
Record invocation : Type := {
  call_prompt : string;
  call_stop : option (list string);
  call_userid : string;
}.

(** The functions and objects the chain receives or imports: the vector
    database loader, [get_context_docs] and [get_context_chunks] of
    [chain/context.py], [get_pruned_query] of [chain/query_proc.py] and
    the language model. Each of them may raise. *)
Record collaborators : Type := {
  VectorDB : Type;
  ScopeType : Type;
  TConfig : Type;
  load : result VectorDB;
  get_context_docs :
    string → string → VectorDB → Z → option ScopeType → option (list string)
    → result (list document);
  get_context_chunks : list document → result (list string);
  get_pruned_query : TConfig → string → option string → list string → result string;
  llm_invoke : invocation → result string;
}.

(** Exceptions, and the calls the language model has received. *)
Definition C (A : Type) : Type := list invocation → result A * list invocation.

#[global] Instance C_ret : MRet C := λ A a log, (Return a, log).
#[global] Instance C_bind : MBind C :=
  λ A B k m log, match m log with
                 | (Return a, log') => k a log'
                 | (Raise e, log') => (Raise e, log')
                 end.

Definition throw {A} (e : exn) : C A := λ log, (Raise e, log).

Definition lift {A} (r : result A) : C A := λ log, (r, log).

Definition invoke (E : collaborators) (prompt : string) (stop : option (list string))
    (userid : string) : C string :=
  λ log, let call := {| call_prompt := prompt; call_stop := stop; call_userid := userid |} in
         (llm_invoke E call, log ++ [call]).

Definition _LLM_TEMPLATE : string :=
  "Answer based only on this context and do not add any imaginative details. Make sure to use the same language as the question in your answer.
{context}

{question}
".

Definition process_query (E : collaborators) (user_id : string) (app_config : TConfig E)
    (query : string) (no_ctx_template : option string) (end_separator : string)
  : C LLMOutput :=
  let stop := if negb (is_empty end_separator) then Some [end_separator] else None in
  (* both components of the pair are evaluated before one is selected *)
  pruned ← lift (get_pruned_query E app_config query no_ctx_template []);
  let prompt := match no_ctx_template with
                | Some _ => pruned
                | None => query
                end in
  out ← invoke E prompt stop user_id;
  mret {| output := strip out; sources := [] |}.

(** [d.metadata.get('source')] *)
Fixpoint metadata_get (k : string) (md : list (string * string)) : option string :=
  match md with
  | [] => None
  | (k', v) :: rest => if String.eqb k k' then Some v else metadata_get k rest
  end.

(** The walrus-filtered element of the set comprehension: the source of
    [d] when it is present and not empty. *)
Definition truthy_source (d : document) : option string :=
  match metadata_get "source" (metadata d) with
  | Some s => if is_empty s then None else Some s
  | None => None
  end.

(** [list({source for d in context_docs if (source := ...)})] *)
Definition unique_sources (context_docs : list document) : list string :=
  elements (list_to_set (omap truthy_source context_docs) : gset string).

(** [template or _LLM_TEMPLATE] *)
Definition template_or_default (template : option string) : string :=
  match template with
  | Some t => if is_empty t then _LLM_TEMPLATE else t
  | None => _LLM_TEMPLATE
  end.

Definition process_context_query (E : collaborators) (user_id : string)
    (app_config : TConfig E) (query : string) (ctx_limit : Z)
    (scope_type : option (ScopeType E)) (scope_list : option (list string))
    (template : option string) (end_separator : string) : C LLMOutput :=
  db ← lift (load E);
  context_docs ← lift (get_context_docs E user_id query db ctx_limit scope_type scope_list);
  if (length context_docs =? 0)%nat then
    throw (ContextException "No documents retrieved, please index a few documents first")
  else
    context_chunks ← lift (get_context_chunks E context_docs);
    prompt ← lift (get_pruned_query E app_config query
                     (Some (template_or_default template)) context_chunks);
    out ← invoke E prompt (Some [end_separator]) user_id;
    mret {| output := strip out; sources := unique_sources context_docs |}.

End OneShot.

(** ** The prompt builder *)

Module PromptBuilder.

(** Modelled from the spec: [get_pruned_query] lives in
    [chain/query_proc.py], which is not among the sources; this is the
    prompt builder as the specification describes it. The token counter
    ([measure], [limit]) and the merging of query and chunks into a
    template ([merge]) are its collaborators. *)
Record toolkit : Type := {
  measure : string → nat;
  limit : nat;
  merge : string → string → list string → string;
}.

(** Modelled from the spec: what the builder yields, the prompt with the
    chunks it holds or the error of section 7. *)
Inductive built : Type :=
| Prompt (text : string) (included : list string)
| ContextTooSmallError.

(** Modelled from the spec: the walk over the chunks of section 4.2.
    Chunks are taken in their order while the prompt with one more chunk
    still measures within the limit; the first one that does not fit
    ends the walk. *)
Fixpoint include_chunks (T : toolkit) (template query : string)
    (included rest : list string) : list string :=
  match rest with
  | [] => included
  | chunk :: rest' =>
      if (measure T (merge T template query (included ++ [chunk])) <=? limit T)%nat
      then include_chunks T template query (included ++ [chunk]) rest'
      else included
  end.

(** Modelled from the spec: the builder of section 4.2 ([get_pruned_query]
    in the code). It fails when query and template alone exceed the limit. *)
Definition build (T : toolkit) (template query : string) (chunks : list string) : built :=
  if (limit T <? measure T (merge T template query []))%nat then ContextTooSmallError
  else
    let included := include_chunks T template query [] chunks in
    Prompt (merge T template query included) included.

End PromptBuilder.

(** ** The rules of the specification, for comparison with the code *)

Module PruneRules.
Import Prune.

(** The client [main] builds from its arguments. *)
Definition client_of (a : args) : client :=
  {| base_url := rstrip_char "/" (base a);
     headers := _headers (api_key a) (api_token a) |}.

(** What [get_doc_status] yields for a document id, whatever the world. *)
Definition doc_status (net : network) (c : client) (doc_id : string)
  : result (option string * Z) :=
  fst (get_doc_status net c doc_id (boot ∅)).

(** The removal rule in the words of the specification: a record is
    marked when its [doc_id] is blank, when the remote answers 404, or
    when the reported status is failed or error; [Raise] when the check
    of the record raises. *)
Definition marked (net : network) (c : client) (entry : json) : result bool :=
  match entry with
  | JObj fields =>
      let doc_id := doc_id_of (dict_get fields "doc_id") in
      if is_empty doc_id then Return true
      else
        match doc_status net c doc_id with
        | Return (status, http_status) =>
            Return ((http_status =? 404)%Z || is_failed_status status)
        | Raise e => Raise e
        end
  | _ => Raise AttributeError
  end.

(** The digests a scan of [entries] marks, from a quiet world. *)
Definition removals (net : network) (a : args) (entries : list (string * json))
  : result (list string) :=
  match fst (scan net (client_of a) entries scan_init (boot ∅)) with
  | Return st => Return (to_remove st)
  | Raise e => Raise e
  end.

(** The two lines [main] prints around the scan. *)
Definition scanning_line (a : args) (entries : list (string * json)) : string :=
  "Scanning " +:+ pretty (length entries) +:+ " cache entries against "
  +:+ base a +:+ " ...".

Definition summary_line (st : scan_state) : string :=
  "Checked=" +:+ pretty (checked st) +:+ ", removing="
  +:+ pretty (length (to_remove st)) +:+ " (failed=" +:+ pretty (failed st)
  +:+ ", not_found=" +:+ pretty (not_found st) +:+ ")".

(** [YYYYMMDD-HHMMSS]: eight digits, a dash, six digits. *)
Definition is_digit (c : ascii) : bool :=
  let n := nat_of_ascii c in (48 <=? n)%nat && (n <=? 57)%nat.

Definition is_timestamp (s : string) : bool :=
  (String.length s =? 15)%nat
  && all_chars is_digit (substring 0 8 s)
  && String.eqb (substring 8 1 s) "-"
  && all_chars is_digit (substring 9 6 s).

(** A broken-down time as [time.localtime] returns it, in the years
    with four digits. *)
Definition valid_time (t : struct_time) : bool :=
  (1000 <=? tm_year t)%N && (tm_year t <=? 9999)%N
  && (1 <=? tm_mon t)%N && (tm_mon t <=? 12)%N
  && (1 <=? tm_mday t)%N && (tm_mday t <=? 31)%N
  && (tm_hour t <=? 23)%N && (tm_min t <=? 59)%N && (tm_sec t <=? 61)%N.

(** The world after the backup, the write of the temporary file and its
    move over the cache. *)
Definition applied (path backup : string) (pruned : list (string * json))
    (original : file) (w : world) : world :=
  let tmp := add_suffix path ".tmp" in
  let w1 := set_files (<[backup := original]> (files w)) (Copy path backup) w in
  let w2 := set_files (<[tmp := JsonDoc (JObj pruned)]> (files w1)) (WriteFile tmp) w1 in
  set_files (<[path := JsonDoc (JObj pruned)]> (delete tmp (files w2))) (Replace tmp path) w2.

End PruneRules.

(** ** Sample inputs *)

Module Samples.
Import Prune.

Definition cache_path : string :=
  "/data/context_chat_backend/persistent_storage/r2r_upsert_cache.json".

Definition live_args : args :=
  {| cache := cache_path; base := "http://127.0.0.1:7272/";
     api_key := None; api_token := Some "secret"; dry_run := false |}.

Definition dry_args : args :=
  {| cache := cache_path; base := "http://127.0.0.1:7272/";
     api_key := None; api_token := Some "secret"; dry_run := true |}.

Definition noon : struct_time :=
  {| tm_year := 2025; tm_mon := 3; tm_mday := 9;
     tm_hour := 12; tm_min := 0; tm_sec := 7 |}.

Definition later : struct_time :=
  {| tm_year := 2025; tm_mon := 3; tm_mday := 9;
     tm_hour := 12; tm_min := 5; tm_sec := 0 |}.

(** The cache of the scenario of the specification. *)
Definition two_records : list (string * json) :=
  [("d1", JObj [("doc_id", JStr "x1"); ("filename", JStr "a.txt")]);
   ("d2", JObj [("doc_id", JStr ""); ("filename", JStr "b.txt")])].

Definition disk (content : file) : gmap string file := {[ cache_path := content ]}.

(** Remote services: every document is gone; every answer is 200 with a
    [results] field that is a list. *)
Definition all_gone : network := λ _, Response 404 None.
Definition list_results : network :=
  λ _, Response 200 (Some (JObj [("results", JArr [])])).

(** Collaborators of the chain: a store that returns [docs], chunks that
    are the texts of the documents, a helper that puts the chunks, the
    template and the query one after the other, and a model that
    answers with its prompt between blanks. *)
Definition store (docs : list OneShot.document) : OneShot.collaborators :=
  {| OneShot.VectorDB := unit;
     OneShot.ScopeType := unit;
     OneShot.TConfig := unit;
     OneShot.load := Return ();
     OneShot.get_context_docs := λ _ _ _ _ _ _, Return docs;
     OneShot.get_context_chunks := λ ds, Return (List.map OneShot.page_content ds);
     OneShot.get_pruned_query :=
       λ _ query template chunks,
         Return (join "|" chunks +:+ "|" +:+ default "-" template +:+ "|" +:+ query);
     OneShot.llm_invoke := λ call, Return (" " +:+ OneShot.call_prompt call +:+ " ") |}.

Definition doc (text source : string) : OneShot.document :=
  {| OneShot.page_content := text; OneShot.metadata := [("source", source)] |}.

(** Two chunks of one file and a chunk whose source is empty. *)
Definition three_docs : list OneShot.document :=
  [doc "alpha" "a.txt"; doc "beta" ""; doc "gamma" "a.txt"].

(** A token counter that counts characters, a limit of ten, and a merge
    that writes template, query and chunks one after the other. *)
Definition by_length : PromptBuilder.toolkit :=
  {| PromptBuilder.measure := String.length;
     PromptBuilder.limit := 10;
     PromptBuilder.merge := λ template query chunks, template +:+ query +:+ join "" chunks |}.

End Samples.

(** ** More of the Python string methods *)

Module PyText.

Definition first_char (s : string) : option ascii :=
  match s with
  | EmptyString => None
  | String c _ => Some c
  end.

Fixpoint last_char (s : string) : option ascii :=
  match s with
  | EmptyString => None
  | String c s' =>
      match s' with
      | EmptyString => Some c
      | _ => last_char s'
      end
  end.

(** [s.startswith(ch)] and [s.endswith(ch)] for a one-character argument. *)
Definition startswith_char (ch : ascii) (s : string) : bool :=
  match first_char s with
  | Some c => Ascii.eqb c ch
  | None => false
  end.

Definition endswith_char (ch : ascii) (s : string) : bool :=
  match last_char s with
  | Some c => Ascii.eqb c ch
  | None => false
  end.

(** [ch * n] *)
Fixpoint repeat_char (ch : ascii) (n : nat) : string :=
  match n with
  | O => EmptyString
  | S n' => String ch (repeat_char ch n')
  end.

(** [{**d, k: v}]: the value of an existing key is replaced where the
    key stands, a new key goes to the end. *)
Fixpoint dict_set (k : string) (v : json) (d : list (string * json))
  : list (string * json) :=
  match d with
  | [] => [(k, v)]
  | (k', v') :: rest =>
      if String.eqb k k' then (k', v) :: rest else (k', v') :: dict_set k v rest
  end.

End PyText.

(** ** context_chat_backend/models/ctransformer.py *)

Module CTransformer.
Import PyText.

(** [os.path.join(a, b)] on POSIX. *)
Definition path_join (a b : string) : string :=
  if startswith_char "/" b || is_empty a then b
  else if endswith_char "/" a then a +:+ b
  else a +:+ "/" +:+ b.

(** The model object: the class [CTransformers] applied to its keyword
    arguments. *)
Inductive model : Type :=
| CTransformers (kwargs : list (string * json)).

(** [model_config.get(k)]: [None] has no such method. *)
Definition config_get (model_config : option (list (string * json))) (k : string)
  : result json :=
  match model_config with
  | Some d => Return (dict_get d k)
  | None => Raise AttributeError
  end.

(** [model_config.get(k, '')] *)
Definition config_get_or_empty (model_config : option (list (string * json)))
    (k : string) : result json :=
  match model_config with
  | Some d => Return (default (JStr "") (assoc k d))
  | None => Raise AttributeError
  end.

#[global] Instance result_ret : MRet result := λ A a, Return a.
#[global] Instance result_bind : MBind result :=
  λ A B k m, match m with
             | Return a => k a
             | Raise e => Raise e
             end.

(** [get_model_for(model_type, model_config)]; [MODEL_DIR] is the value
    of the environment variable, if it is set. The log line is left out. *)
Definition get_model_for (MODEL_DIR : option string) (model_type : string)
    (model_config : option (list (string * json))) : result (option model) :=
  let model_dir := default "persistent_storage/model_files" MODEL_DIR in
  named ← config_get model_config "model";
  let model_dir := if startswith_char "/" (str named) then "" else model_dir in
  second ← config_get_or_empty model_config "model";
  model_path ← match second with
               | JStr s => Return (path_join model_dir s)
               | _ => Raise (OtherError "TypeError")
               end;
  match model_config with
  | None => Return None
  | Some d =>
      if String.eqb model_type "llm"
      then Return (Some (CTransformers (dict_set "model" (JStr model_path) d)))
      else Return None
  end.

End CTransformer.

(** ** What a scan accounts for *)

Module ScanRules.
Import Prune PruneRules.

(** The record has a blank [doc_id]. *)
Definition is_blank (kv : string * json) : bool :=
  match kv.2 with
  | JObj fields => is_empty (doc_id_of (dict_get fields "doc_id"))
  | _ => false
  end.

(** The rule marks the record. *)
Definition is_marked (net : network) (c : client) (kv : string * json) : bool :=
  match marked net c kv.2 with
  | Return b => b
  | Raise _ => false
  end.

(** The digests the rule marks, in the order of the cache. *)
Definition marked_digests (net : network) (c : client) (items : list (string * json))
  : list string :=
  List.map fst (List.filter (is_marked net c) items).

(** The request the check of a record sends. *)
Definition request_for (c : client) (kv : string * json) : request :=
  {| req_client := c;
     req_path := "/v3/documents/"
                 +:+ match kv.2 with
                     | JObj fields => doc_id_of (dict_get fields "doc_id")
                     | _ => ""
                     end |}.

(** The arguments with the dry-run flag set or cleared. *)
Definition with_dry_run (flag : bool) (a : args) : args :=
  {| cache := cache a; base := base a; api_key := api_key a;
     api_token := api_token a; dry_run := flag |}.

(** The status a [results] object reports: [ingestion_status] when it is
    truthy, [status] otherwise. *)
Definition reported (results : list (string * json)) : option string :=
  match or_ (dict_get results "ingestion_status") (dict_get results "status") with
  | JNull => None
  | v => Some (str v)
  end.

End ScanRules.

(** ** More sample collaborators *)

Module ChainSamples.
Import OneShot.

(** A pruning helper that needs a template, one that finds the context
    too small, and a model that fails. *)
Definition needs_template : collaborators :=
  {| VectorDB := unit; ScopeType := unit; TConfig := unit;
     load := Return ();
     get_context_docs := λ _ _ _ _ _ _, Return [];
     get_context_chunks := λ _, Return [];
     get_pruned_query := λ _ _ template _,
       match template with
       | Some t => Return t
       | None => Raise AttributeError
       end;
     llm_invoke := λ call, Return (call_prompt call) |}.

Definition too_small (docs : list document) : collaborators :=
  {| VectorDB := unit; ScopeType := unit; TConfig := unit;
     load := Return ();
     get_context_docs := λ _ _ _ _ _ _, Return docs;
     get_context_chunks := λ ds, Return (List.map page_content ds);
     get_pruned_query := λ _ _ _ _, Raise (ValueError "Context length is too small");
     llm_invoke := λ call, Return (call_prompt call) |}.

Definition failing_model : collaborators :=
  {| VectorDB := unit; ScopeType := unit; TConfig := unit;
     load := Return ();
     get_context_docs := λ _ _ _ _ _ _, Return [];
     get_context_chunks := λ _, Return [];
     get_pruned_query := λ _ query _ _, Return query;
     llm_invoke := λ _, Raise (OtherError "TimeoutError") |}.

End ChainSamples.

(** * Properties *)

(** ** Python strings *)

Lemma is_empty_true (s : string) : is_empty s = true ↔ s = "".
Proof. destruct s; simpl; split; congruence. Qed.

Lemma lstrip_by_empty p (s : string) : lstrip_by p s = "" ↔ all_chars p s = true.
Proof.
  induction s as [|c s IH]; simpl; [tauto|].
  destruct (p c); simpl; [exact IH|]. split; discriminate.
Qed.

Lemma rstrip_by_empty p (s : string) : rstrip_by p s = "" ↔ all_chars p s = true.
Proof.
  induction s as [|c s IH]; simpl; [tauto|].
  destruct (rstrip_by p s) eqn:Hr.
  - destruct (p c); simpl; [|split; discriminate].
    split; intros _; [by apply IH | done].
  - split; [discriminate|].
    intros [_ Hs]%andb_true_iff. apply IH in Hs. discriminate.
Qed.

Lemma lstrip_by_all p (s : string) :
  all_chars p (lstrip_by p s) = true → lstrip_by p s = "".
Proof.
  induction s as [|c s IH]; simpl; [done|].
  destruct (p c) eqn:Hc; [exact IH|].
  simpl. rewrite Hc. discriminate.
Qed.

(** [s.strip()] is empty exactly for a text of white space. *)
Lemma strip_empty (s : string) : strip s = "" ↔ all_chars is_space s = true.
Proof.
  unfold strip. rewrite rstrip_by_empty. split.
  - intros H. by apply lstrip_by_empty, lstrip_by_all.
  - intros H. apply lstrip_by_empty in H. by rewrite H.
Qed.

(** ** The prune script: how a run unfolds *)

Section PruneRun.
Import Prune PruneRules.

Ltac run := unfold mbind, M_bind, mret, M_ret, raise, print, eprint; simpl.

Lemma get_doc_status_run net c doc_id w :
  get_doc_status net c doc_id w
  = (doc_status net c doc_id,
     sent {| req_client := c; req_path := "/v3/documents/" +:+ doc_id |} w).
Proof.
  unfold doc_status, get_doc_status, http_get. run.
  destruct (net _) as [rs|code body]; [done|].
  destruct (code =? 404)%Z; [done|].
  destruct (400 <=? code)%Z; [done|].
  destruct body as [[| | | | |top]|]; try done.
  destruct (default (JObj []) (assoc "results" top)); done.
Qed.

(** A record with a blank [doc_id] is marked without any effect on the
    world: nothing is requested and nothing is printed. *)
Lemma scan_entry_blank net c st digest fields w :
  is_empty (doc_id_of (dict_get fields "doc_id")) = true →
  scan_entry net c st digest (JObj fields) w
  = (Return {| to_remove := to_remove st ++ [digest]; checked := S (checked st);
               failed := failed st; not_found := not_found st |}, w).
Proof. intros H. unfold scan_entry. run. by rewrite H. Qed.

(** A record with a [doc_id] costs exactly one request. *)
Lemma scan_entry_requests net c st digest fields w :
  is_empty (doc_id_of (dict_get fields "doc_id")) = false →
  requests (scan_entry net c st digest (JObj fields) w).2
  = requests w ++ [{| req_client := c;
                      req_path := "/v3/documents/" +:+ doc_id_of (dict_get fields "doc_id") |}].
Proof.
  intros H. unfold scan_entry. run. rewrite H, get_doc_status_run.
  destruct (doc_status _ _ _) as [[status code]|e]; [|done].
  destruct (code =? 404)%Z; [done|]. by destruct (is_failed_status status).
Qed.

(** One iteration against the rule [marked]. *)
Lemma scan_entry_marked net c st digest entry w :
  match marked net c entry with
  | Return b =>
      ∃ st', (scan_entry net c st digest entry w).1 = Return st'
             ∧ to_remove st' = to_remove st ++ (if b then [digest] else [])
             ∧ checked st' = S (checked st)
  | Raise e => (scan_entry net c st digest entry w).1 = Raise e
  end.
Proof.
  unfold marked, scan_entry.
  destruct entry as [| | | | |fields]; try done. run.
  destruct (is_empty _) eqn:Hd; [by eexists|].
  rewrite get_doc_status_run.
  destruct (doc_status _ _ _) as [[status code]|e]; [|done].
  destruct (code =? 404)%Z; simpl; [by eexists|].
  destruct (is_failed_status status); simpl; eexists; split_and!; try done.
  by rewrite app_nil_r.
Qed.

(** An iteration touches neither the files nor the error stream. *)
Lemma scan_entry_frame net c st digest entry w :
  let w' := (scan_entry net c st digest entry w).2 in
  files w' = files w ∧ fs_log w' = fs_log w ∧ stderr w' = stderr w.
Proof.
  unfold scan_entry.
  destruct entry as [| | | | |fields]; try done. run.
  destruct (is_empty _) eqn:Hd; [done|].
  rewrite get_doc_status_run.
  destruct (doc_status _ _ _) as [[status code]|e]; [|done].
  destruct (code =? 404)%Z; simpl; [done|].
  by destruct (is_failed_status status).
Qed.

(** The value of an iteration does not depend on the world. *)
Lemma scan_entry_value net c st digest entry w w0 :
  (scan_entry net c st digest entry w).1 = (scan_entry net c st digest entry w0).1.
Proof.
  unfold scan_entry.
  destruct entry as [| | | | |fields]; try done. run.
  destruct (is_empty _) eqn:Hd; [done|].
  rewrite !get_doc_status_run.
  destruct (doc_status _ _ _) as [[status code]|e]; [|done].
  destruct (code =? 404)%Z; simpl; [done|].
  by destruct (is_failed_status status).
Qed.

Lemma scan_cons net c digest entry rest st w :
  scan net c ((digest, entry) :: rest) st w
  = match scan_entry net c st digest entry w with
    | (Return st', w') => scan net c rest st' w'
    | (Raise e, w') => (Raise e, w')
    end.
Proof. done. Qed.

Lemma scan_frame net c items : ∀ st w,
  let w' := (scan net c items st w).2 in
  files w' = files w ∧ fs_log w' = fs_log w ∧ stderr w' = stderr w.
Proof.
  induction items as [|[digest entry] rest IH]; intros st w; [done|].
  rewrite scan_cons.
  pose proof (scan_entry_frame net c st digest entry w) as (Hf & Hl & He).
  destruct (scan_entry net c st digest entry w) as [[st'|e] w1]; simpl in *; [|done].
  destruct (IH st' w1) as (Hf' & Hl' & He'). simpl. split_and!; congruence.
Qed.

Lemma scan_value net c items : ∀ st w w0,
  (scan net c items st w).1 = (scan net c items st w0).1.
Proof.
  induction items as [|[digest entry] rest IH]; intros st w w0; [done|].
  rewrite !scan_cons.
  pose proof (scan_entry_value net c st digest entry w w0) as Hv.
  destruct (scan_entry net c st digest entry w) as [[st'|e] w1],
           (scan_entry net c st digest entry w0) as [[st0|e0] w2];
    simpl in *; simplify_eq; [apply IH | done].
Qed.

(** [main], step by step. *)
Lemma main_run net now a w :
  main net now a w =
  match files w !! cache a with
  | None => (Return 2%Z, to_stderr ("Cache file not found: " +:+ cache a) w)
  | Some (Malformed _) => (Raise JSONDecodeError, w)
  | Some (JsonDoc (JObj entries)) =>
      match scan net (client_of a) entries scan_init
              (to_stdout (scanning_line a entries) w) with
      | (Raise e, w1) => (Raise e, w1)
      | (Return st, w1) =>
          let w2 := to_stdout (summary_line st) w1 in
          if dry_run a then
            (Return 0%Z, to_stdout "Dry-run enabled; no changes written." w2)
          else
            match to_remove st with
            | [] => (Return 0%Z, to_stdout "No entries to remove." w2)
            | _ =>
                let backup := add_suffix (cache a) (".bak." +:+ strftime now) in
                (Return 0%Z,
                 to_stdout ("Wrote pruned cache to " +:+ cache a +:+ " (backup at "
                            +:+ backup +:+ ")")
                   (applied (cache a) backup (pop_all (to_remove st) entries)
                      (JsonDoc (JObj entries)) w2))
            end
      end
  | Some (JsonDoc _) =>
      (Return 2%Z,
       to_stderr "Unexpected cache shape: expected a JSON object mapping digest->entry" w)
  end.
Proof.
  unfold main, path_exists, load_cache. run.
  destruct (files w !! cache a) as [[raw|doc]|] eqn:Hfile; simpl;
    rewrite ?Hfile; simpl; try done.
  destruct doc as [| | | | |entries]; try done.
  fold (client_of a). fold (scanning_line a entries).
  pose proof (scan_frame net (client_of a) entries scan_init
                (to_stdout (scanning_line a entries) w)) as (Hf & _).
  destruct (scan _ _ _ _ _) as [[st|e] w1]; simpl in *; [|done].
  fold (summary_line st).
  destruct (dry_run a); [done|].
  generalize (pop_all (to_remove st) entries). intros pruned.
  destruct (to_remove st) as [|d ds]; [done|].
  unfold applied, copy2, save_cache, write_json, replace. run.
  rewrite Hf, Hfile. simpl. by rewrite lookup_insert_eq.
Qed.

(** *** The scan against the removal rule *)

(** A scan that returns has checked every record without an exception,
    has marked the digest of every record the rule marks, and has
    marked nothing else. *)
Lemma scan_returns net c items : ∀ st w st',
  (scan net c items st w).1 = Return st' →
  (∀ kv, kv ∈ items → ∃ b, marked net c kv.2 = Return b)
  ∧ (∀ d, d ∈ to_remove st' ↔
          d ∈ to_remove st ∨ ∃ kv, kv ∈ items ∧ kv.1 = d ∧ marked net c kv.2 = Return true)
  ∧ checked st' = (checked st + length items)%nat.
Proof.
  induction items as [|[digest entry] rest IH]; intros st w st' Hrun.
  - simpl in Hrun. injection Hrun as <-. split_and!.
    + intros kv Hin. by apply elem_of_nil in Hin.
    + intros d. split; [by left|]. intros [?|(kv & Hin & _)]; [done|].
      by apply elem_of_nil in Hin.
    + simpl. lia.
  - rewrite scan_cons in Hrun.
    pose proof (scan_entry_marked net c st digest entry w) as Hm.
    destruct (scan_entry net c st digest entry w) as [[st1|e] w1]; simpl in *;
      [|destruct (marked net c entry) as [b|e']; [destruct Hm as (? & ? & _)|]; congruence].
    destruct (marked net c entry) as [b|e'] eqn:Hb; [|congruence].
    destruct Hm as (st1' & [= <-] & Hrm & Hck).
    destruct (IH _ _ _ Hrun) as (Hall & Hiff & Hlen). split_and!.
    + intros kv [->|Hin]%elem_of_cons; [by exists b|by apply Hall].
    + intros d. rewrite Hiff, Hrm, elem_of_app. split.
      * intros [[Hd|Hd]|(kv & Hin & Hk & Hkv)].
        -- by left.
        -- destruct b; [|by apply elem_of_nil in Hd].
           apply list_elem_of_singleton in Hd as ->. right.
           exists (digest, entry). split_and!; [apply elem_of_cons; by left|done..].
        -- right. exists kv. split_and!; [apply elem_of_cons; by right|done..].
      * intros [Hd|(kv & [->|Hin]%elem_of_cons & Hk & Hkv)].
        -- by left; left.
        -- simpl in *. rewrite Hb in Hkv. injection Hkv as ->. subst d.
           left; right. by apply list_elem_of_singleton.
        -- right. by exists kv.
    + rewrite Hlen, Hck. simpl. lia.
Qed.

(** Records the rule keeps are scanned without a removal. *)
Lemma scan_all_kept net c items : ∀ st w,
  (∀ kv, kv ∈ items → marked net c kv.2 = Return false) →
  ∃ st', (scan net c items st w).1 = Return st' ∧ to_remove st' = to_remove st.
Proof.
  induction items as [|[digest entry] rest IH]; intros st w Hkept.
  - by exists st.
  - rewrite scan_cons.
    pose proof (scan_entry_marked net c st digest entry w) as Hm.
    assert (marked net c entry = Return false) as Hk
      by (apply (Hkept (digest, entry)), elem_of_cons; by left).
    rewrite Hk in Hm.
    destruct Hm as (st1 & Hst1 & Hrm & _). rewrite app_nil_r in Hrm.
    destruct (scan_entry net c st digest entry w) as [r w1]. simpl in Hst1. subst r.
    destruct (IH st1 w1) as (st' & Hrun & Hrm').
    { intros kv Hin. apply Hkept, elem_of_cons. by right. }
    exists st'. split; [done|congruence].
Qed.

(** The scan completes whenever the check of no record raises. *)
Lemma scan_completes net c items : ∀ st w,
  (∀ kv, kv ∈ items → ∃ b, marked net c kv.2 = Return b) →
  ∃ st', (scan net c items st w).1 = Return st'.
Proof.
  induction items as [|[digest entry] rest IH]; intros st w Hok.
  - by exists st.
  - rewrite scan_cons.
    pose proof (scan_entry_marked net c st digest entry w) as Hm.
    destruct (Hok (digest, entry)) as [b Hb]; [apply elem_of_cons; by left|].
    simpl in Hb. rewrite Hb in Hm. destruct Hm as (st1 & Hst1 & _).
    destruct (scan_entry net c st digest entry w) as [r w1]. simpl in Hst1. subst r.
    apply IH. intros kv Hin. apply Hok, elem_of_cons. by right.
Qed.

Lemma dict_pop_elem_of d cache kv :
  kv ∈ dict_pop d cache ↔ kv ∈ cache ∧ kv.1 ≠ d.
Proof.
  unfold dict_pop. rewrite !list_elem_of_In, filter_In, negb_true_iff.
  split; intros [Hin Hne]; split; try done.
  - apply String.eqb_neq in Hne. congruence.
  - apply String.eqb_neq. congruence.
Qed.

(** What is left after the removals: the records of other digests. *)
Lemma pop_all_elem_of ds : ∀ cache kv,
  kv ∈ pop_all ds cache ↔ kv ∈ cache ∧ kv.1 ∉ ds.
Proof.
  induction ds as [|d ds IH]; intros cache kv; simpl.
  - split; [intros H; split; [done|apply not_elem_of_nil]|by intros [? _]].
  - unfold pop_all in *. simpl. rewrite IH, dict_pop_elem_of, not_elem_of_cons. tauto.
Qed.

(** The digests a scan marks are those of the records the rule marks. *)
Lemma removals_spec net a entries ds :
  removals net a entries = Return ds →
  ∀ d, d ∈ ds ↔ ∃ kv, kv ∈ entries ∧ kv.1 = d ∧ marked net (client_of a) kv.2 = Return true.
Proof.
  unfold removals. intros Hrm d.
  destruct (scan _ _ _ _ _).1 as [st|e] eqn:Hscan; [|done]. injection Hrm as <-.
  apply scan_returns in Hscan as (_ & Hiff & _). rewrite Hiff. simpl.
  split; [intros [H|H]; [by apply elem_of_nil in H|done]|by right].
Qed.

Lemma removals_scan net a entries w :
  removals net a entries
  = match (scan net (client_of a) entries scan_init w).1 with
    | Return st => Return (to_remove st)
    | Raise e => Raise e
    end.
Proof. unfold removals. by rewrite (scan_value _ _ _ _ (boot ∅) w). Qed.

End PruneRun.

(** ** Time stamps and paths *)

Section Stamps.
Import Prune PruneRules.

Lemma pretty_N_char_digit x : is_digit (pretty_N_char x) = true.
Proof. unfold pretty_N_char. by repeat case_match. Qed.

Lemma pretty_N_one_digit (x : N) :
  (x < 10)%N → pretty x = String (pretty_N_char x) "".
Proof.
  intros Hx. unfold pretty, pretty_N. case_decide as H0; [by subst|].
  rewrite pretty_N_go_step by lia.
  replace (x `div` 10)%N with 0%N by (symmetry; apply N.div_small; lia).
  rewrite pretty_N_go_0. by rewrite N.mod_small by lia.
Qed.

Lemma pretty_N_two_digits (x : N) :
  (10 ≤ x < 100)%N →
  pretty x = String (pretty_N_char (x `div` 10)) (String (pretty_N_char (x `mod` 10)) "").
Proof.
  intros Hx. unfold pretty, pretty_N. case_decide as H0; [lia|].
  assert (0 < x `div` 10 < 10)%N as Hq.
  { split; [apply N.div_str_pos; lia|apply N.Div0.div_lt_upper_bound; lia]. }
  rewrite pretty_N_go_step by lia.
  rewrite pretty_N_go_step by lia.
  replace ((x `div` 10) `div` 10)%N with 0%N by (symmetry; apply N.div_small; lia).
  rewrite pretty_N_go_0. by rewrite (N.mod_small (x `div` 10)) by lia.
Qed.

Lemma pretty_N_four_digits (x : N) :
  (1000 ≤ x ≤ 9999)%N →
  ∃ c1 c2 c3 c4,
    pretty x = String c1 (String c2 (String c3 (String c4 "")))
    ∧ is_digit c1 = true ∧ is_digit c2 = true
    ∧ is_digit c3 = true ∧ is_digit c4 = true.
Proof.
  intros Hx. unfold pretty, pretty_N. case_decide as H0; [lia|].
  assert (100 ≤ x `div` 10 < 1000)%N as Hq1.
  { split; [apply N.div_le_lower_bound; lia|apply N.Div0.div_lt_upper_bound; lia]. }
  assert (10 ≤ (x `div` 10) `div` 10 < 100)%N as Hq2.
  { split; [apply N.div_le_lower_bound; lia|apply N.Div0.div_lt_upper_bound; lia]. }
  assert (1 ≤ ((x `div` 10) `div` 10) `div` 10 < 10)%N as Hq3.
  { split; [apply N.div_le_lower_bound; lia|apply N.Div0.div_lt_upper_bound; lia]. }
  do 4 (rewrite pretty_N_go_step by lia).
  replace ((((x `div` 10) `div` 10) `div` 10) `div` 10)%N with 0%N
    by (symmetry; apply N.div_small; lia).
  rewrite pretty_N_go_0.
  do 4 eexists. split; [done|]. by rewrite !pretty_N_char_digit.
Qed.

Lemma zfill_two_digits (x : N) :
  (x < 100)%N →
  ∃ c1 c2, zfill 2 (pretty x) = String c1 (String c2 "")
           ∧ is_digit c1 = true ∧ is_digit c2 = true.
Proof.
  intros Hx. destruct (decide (x < 10)%N).
  - rewrite pretty_N_one_digit by done.
    exists "0"%char, (pretty_N_char x). by rewrite pretty_N_char_digit.
  - rewrite pretty_N_two_digits by lia.
    do 2 eexists. split; [done|]. by rewrite !pretty_N_char_digit.
Qed.

(** A valid local time is printed as [YYYYMMDD-HHMMSS]. *)
Lemma strftime_shape t : valid_time t = true → is_timestamp (strftime t) = true.
Proof.
  unfold valid_time. rewrite !andb_true_iff, !N.leb_le.
  intros ((((((((Hy1 & Hy2) & Hm1) & Hm2) & Hd1) & Hd2) & Hh) & Hmin) & Hs).
  unfold strftime.
  destruct (pretty_N_four_digits (tm_year t)) as (y1 & y2 & y3 & y4 & -> & ? & ? & ? & ?);
    [lia|].
  destruct (zfill_two_digits (tm_mon t)) as (m1 & m2 & -> & ? & ?); [lia|].
  destruct (zfill_two_digits (tm_mday t)) as (d1 & d2 & -> & ? & ?); [lia|].
  destruct (zfill_two_digits (tm_hour t)) as (h1 & h2 & -> & ? & ?); [lia|].
  destruct (zfill_two_digits (tm_min t)) as (i1 & i2 & -> & ? & ?); [lia|].
  destruct (zfill_two_digits (tm_sec t)) as (s1 & s2 & -> & ? & ?); [lia|].
  unfold is_timestamp. simpl.
  repeat match goal with H : is_digit _ = true |- _ => rewrite H; clear H end.
  done.
Qed.

Lemma append_length (s t : string) :
  String.length (s +:+ t) = (String.length s + String.length t)%nat.
Proof. induction s as [|c s IH]; simpl; [done|by rewrite IH]. Qed.

Lemma append_inv_head (s t u : string) : s +:+ t = s +:+ u → t = u.
Proof. induction s as [|c s IH]; simpl; [done|]. intros [= H]. by apply IH. Qed.

(** An extension gives a path of its own. *)
Lemma add_suffix_fresh (p ext : string) : ext ≠ "" → add_suffix p ext ≠ p.
Proof.
  intros Hext Heq. apply (f_equal String.length) in Heq.
  unfold add_suffix in Heq. rewrite append_length in Heq.
  destruct ext; [done|]. simpl in Heq. lia.
Qed.

Lemma backup_is_not_tmp (p ts : string) :
  add_suffix p (".bak." +:+ ts) ≠ add_suffix p ".tmp".
Proof. unfold add_suffix. intros H%append_inv_head. discriminate. Qed.

End Stamps.

(** ** The prune script: the properties of the specification *)

Section PruneTheorems.
Import Prune PruneRules Samples.

(** [status.lower() in {"failed", "error"}], as a proposition. *)
Lemma is_failed_status_spec status :
  is_failed_status status = true
  ↔ ∃ s, status = Some s ∧ (lower s = "failed" ∨ lower s = "error").
Proof.
  destruct status as [s|]; simpl.
  - rewrite andb_true_iff, orb_true_iff, !String.eqb_eq, negb_true_iff. split.
    + intros [_ H]. by exists s.
    + intros (s' & [= <-] & H). split; [|done]. by destruct s, H.
  - split; [done|]. by intros (s & ? & _).
Qed.

(** A transport error, and an error status other than 404, keep the
    record. *)
Lemma doc_status_transport_error net c doc_id rs :
  net {| req_client := c; req_path := "/v3/documents/" +:+ doc_id |} = HTTPError rs →
  doc_status net c doc_id = Return (None, default 0%Z rs).
Proof. unfold doc_status, get_doc_status, http_get, mbind, M_bind. simpl. by intros ->. Qed.

Lemma doc_status_error_code net c doc_id code body :
  net {| req_client := c; req_path := "/v3/documents/" +:+ doc_id |} = Response code body →
  (400 ≤ code)%Z →
  doc_status net c doc_id = Return (None, code).
Proof.
  unfold doc_status, get_doc_status, http_get, mbind, M_bind. simpl. intros -> Hc.
  destruct (code =? 404)%Z eqn:H404; [by apply Z.eqb_eq in H404 as ->|].
  by rewrite (proj2 (Z.leb_le 400 code) Hc).
Qed.

(** The check of a document raises only on an answer below 400 whose
    JSON object has a [results] field that is not an object. *)
Lemma doc_status_raises net c doc_id e :
  doc_status net c doc_id = Raise e →
  e = AttributeError
  ∧ ∃ code top v,
      net {| req_client := c; req_path := "/v3/documents/" +:+ doc_id |}
      = Response code (Some (JObj top))
      ∧ (code < 400)%Z ∧ assoc "results" top = Some v
      ∧ ∀ d, v ≠ JObj d.
Proof.
  unfold doc_status, get_doc_status, http_get, mbind, M_bind. simpl.
  destruct (net _) as [rs|code body]; [done|].
  destruct (code =? 404)%Z; [done|].
  destruct (400 <=? code)%Z eqn:Hc; [done|]. apply Z.leb_gt in Hc.
  destruct body as [[| | | | |top]|]; try done.
  destruct (assoc "results" top) as [v|] eqn:Hv; [|done]. simpl.
  destruct v; try done; intros [= <-]; (split; [done|]);
    exists code, top; eexists; split_and!; done.
Qed.

Lemma pretty_N_go_head (x : N) : ∀ s,
  (0 < x)%N → ∃ c r, pretty_N_go x s = String c r ∧ is_digit c = true.
Proof.
  induction (N.lt_wf_0 x) as [x _ IH]; intros s Hx.
  rewrite pretty_N_go_step by done.
  destruct (decide (x `div` 10 = 0)%N) as [->|Hq].
  - rewrite pretty_N_go_0. do 2 eexists. split; [done|apply pretty_N_char_digit].
  - apply IH; [apply N.div_lt; lia|by apply N.neq_0_lt_0].
Qed.

Lemma digit_is_not_space c : is_digit c = true → is_space c = false.
Proof.
  unfold is_digit, is_space.
  rewrite andb_true_iff, orb_false_iff, !andb_false_iff, !Nat.leb_le, !Nat.leb_gt. lia.
Qed.

(** When the [doc_id] of a record counts as blank: the key is missing,
    the value is falsy, or the value is a text of white space. *)
Lemma doc_id_blank v :
  is_empty (doc_id_of v) = true
  ↔ truthy v = false ∨ ∃ s, v = JStr s ∧ all_chars is_space s = true.
Proof.
  unfold doc_id_of, or_. rewrite is_empty_true.
  destruct (truthy v) eqn:Hv; [|split; [by left|done]].
  rewrite strip_empty. split; [|intros [?|(s & -> & Hs)]; [done|exact Hs]].
  intros H. right. destruct v as [|[|]|[|p|p]|s|items|fields]; simpl in *; try discriminate.
  - exfalso. unfold pretty, pretty_Z, pretty, pretty_positive, pretty, pretty_N in H.
    case_decide; [done|].
    destruct (pretty_N_go_head (N.pos p) "") as (c & r & Hc & Hd); [lia|].
    rewrite Hc in H. simpl in H. by rewrite (digit_is_not_space c Hd) in H.
  - by exists s.
Qed.

(** The rule marks a record exactly in the three cases of the
    specification. *)
Lemma marked_spec net c fields :
  marked net c (JObj fields) = Return true
  ↔ is_empty (doc_id_of (dict_get fields "doc_id")) = true
    ∨ is_empty (doc_id_of (dict_get fields "doc_id")) = false
      ∧ ∃ status http_status,
          doc_status net c (doc_id_of (dict_get fields "doc_id"))
          = Return (status, http_status)
          ∧ (http_status = 404%Z
             ∨ ∃ s, status = Some s ∧ (lower s = "failed" ∨ lower s = "error")).
Proof.
  unfold marked. destruct (is_empty _) eqn:Hd.
  - split; [by left|done].
  - destruct (doc_status _ _ _) as [[status code]|e].
    + split.
      * intros [= H]. right. split; [done|]. exists status, code. split; [done|].
        apply orb_true_iff in H as [H|H];
          [left; by apply Z.eqb_eq|right; by apply is_failed_status_spec].
      * intros [?|(_ & status' & code' & [= <- <-] & [->|H])]; [done|done|].
        f_equal. apply orb_true_iff. right. by apply is_failed_status_spec.
    + split; [done|]. intros [?|(_ & ? & ? & ? & _)]; done.
Qed.

(** A run over a cache from which the rule removes nothing ends with
    status 0 and leaves every file as it was. *)
Lemma main_nothing_to_remove net now a w entries :
  files w !! cache a = Some (JsonDoc (JObj entries)) →
  removals net a entries = Return [] →
  (main net now a w).1 = Return 0%Z
  ∧ files (main net now a w).2 = files w
  ∧ fs_log (main net now a w).2 = fs_log w.
Proof.
  intros Hfile Hrm. rewrite main_run, Hfile.
  rewrite (removals_scan _ _ _ (to_stdout (scanning_line a entries) w)) in Hrm.
  pose proof (scan_frame net (client_of a) entries scan_init
                (to_stdout (scanning_line a entries) w)) as (Hf & Hl & _).
  destruct (scan _ _ _ _ _) as [[st|e] w1]; simpl in *; [|done].
  injection Hrm as Hrm. rewrite Hrm. by destruct (dry_run a).
Qed.

(** In dry-run mode no file is touched, whatever happens. *)
Lemma dry_run_frame net now a w :
  dry_run a = true →
  files (main net now a w).2 = files w ∧ fs_log (main net now a w).2 = fs_log w.
Proof.
  intros Hdry. rewrite main_run, Hdry.
  destruct (files w !! cache a) as [[raw|[| | | | |entries]]|]; try done.
  pose proof (scan_frame net (client_of a) entries scan_init
                (to_stdout (scanning_line a entries) w)) as (Hf & Hl & _).
  by destruct (scan _ _ _ _ _) as [[st|e] w1].
Qed.

(** C1 (failing input). The remote answers 200 with a body whose
    [results] field is a list: the check of the first record raises
    [AttributeError], which leaves [main]; the batch is aborted after the
    first request, the second record (blank [doc_id]) is never reached and
    no file is written. The rule of the specification would have kept the
    first record and gone on. *)
Theorem results_not_object_aborts_batch :
  let run := main list_results noon live_args (boot (disk (JsonDoc (JObj two_records)))) in
  run.1 = Raise AttributeError
  ∧ exit_status run.1 = 1%Z
  ∧ length (requests run.2) = 1%nat
  ∧ stdout run.2 = ["Scanning 2 cache entries against http://127.0.0.1:7272/ ..."]
  ∧ fs_log run.2 = [].
Proof. vm_compute. done. Qed.

(** C2 (counterexample). A cache file that is not JSON makes [json.load]
    raise; the exception leaves [main], so the status of the process is
    that of an unhandled exception and not 2. *)
Lemma malformed_cache_exit_status :
  (main all_gone noon live_args (boot (disk (Malformed "{oops")))).1 = Raise JSONDecodeError
  ∧ exit_status (main all_gone noon live_args (boot (disk (Malformed "{oops")))).1 ≠ 2%Z.
Proof. vm_compute. split; [done|discriminate]. Qed.

(** C2 (amended). The status is 0 whenever the scan completes, also when
    nothing is removed; it is 2 when the cache file is missing or its top
    level is not a JSON object; a file that is not JSON makes [main] raise
    the decode error. In the three failing cases no request is sent and no
    file is touched. *)
Theorem main_exit_status net now a w :
  let run := main net now a w in
  match files w !! cache a with
  | None | Some (JsonDoc JNull) | Some (JsonDoc (JBool _)) | Some (JsonDoc (JInt _))
  | Some (JsonDoc (JStr _)) | Some (JsonDoc (JArr _)) =>
      run.1 = Return 2%Z
      ∧ requests run.2 = requests w ∧ files run.2 = files w ∧ fs_log run.2 = fs_log w
  | Some (Malformed _) =>
      run.1 = Raise JSONDecodeError ∧ exit_status run.1 = 1%Z
      ∧ requests run.2 = requests w ∧ files run.2 = files w ∧ fs_log run.2 = fs_log w
  | Some (JsonDoc (JObj entries)) =>
      match removals net a entries with
      | Return _ => run.1 = Return 0%Z
      | Raise e => run.1 = Raise e
      end
  end.
Proof.
  simpl. rewrite main_run.
  destruct (files w !! cache a) as [[raw|[| | | | |entries]]|]; try done.
  rewrite (removals_scan _ _ _ (to_stdout (scanning_line a entries) w)).
  destruct (scan _ _ _ _ _) as [[st|e] w1]; simpl; [|done].
  destruct (dry_run a); [done|]. by destruct (to_remove st).
Qed.

(** C4. A run that is not a dry run and has marked a record copies the
    cache file to [<path>.bak.<YYYYMMDD-HHMMSS>], then writes the pruned
    cache to [<path>.tmp] and moves that file over the cache: the cache
    path itself is only ever the target of the move. *)
Theorem backup_then_replace net now a w entries d ds :
  files w !! cache a = Some (JsonDoc (JObj entries)) →
  dry_run a = false →
  removals net a entries = Return (d :: ds) →
  valid_time now = true →
  let run := main net now a w in
  let backup := cache a +:+ ".bak." +:+ strftime now in
  let tmp := cache a +:+ ".tmp" in
  run.1 = Return 0%Z
  ∧ is_timestamp (strftime now) = true
  ∧ fs_log run.2 = fs_log w ++ [Copy (cache a) backup; WriteFile tmp; Replace tmp (cache a)]
  ∧ backup ≠ cache a ∧ tmp ≠ cache a ∧ backup ≠ tmp
  ∧ files run.2 !! backup = Some (JsonDoc (JObj entries))
  ∧ files run.2 !! cache a = Some (JsonDoc (JObj (pop_all (d :: ds) entries)))
  ∧ files run.2 !! tmp = None
  ∧ ∀ p, p ≠ backup → p ≠ tmp → p ≠ cache a → files run.2 !! p = files w !! p.
Proof.
  intros Hfile Hdry Hrm Hnow. simpl. rewrite main_run, Hfile, Hdry.
  rewrite (removals_scan _ _ _ (to_stdout (scanning_line a entries) w)) in Hrm.
  pose proof (scan_frame net (client_of a) entries scan_init
                (to_stdout (scanning_line a entries) w)) as (Hf & Hl & _).
  destruct (scan _ _ _ _ _) as [[st|e] w1]; simpl in *; [|done].
  injection Hrm as Hrm. rewrite Hrm.
  pose proof (add_suffix_fresh (cache a) (".bak." +:+ strftime now)) as Hb.
  pose proof (add_suffix_fresh (cache a) ".tmp") as Ht.
  pose proof (backup_is_not_tmp (cache a) (strftime now)) as Hbt.
  unfold add_suffix in *. simpl. rewrite Hf, Hl.
  split_and!; try done.
  - by apply strftime_shape.
  - by rewrite <-!app_assoc.
  - by apply Hb.
  - by apply Ht.
  - rewrite lookup_insert_ne by (intros E; by apply Hb).
    rewrite lookup_delete_ne by (intros E; by apply Hbt).
    rewrite lookup_insert_ne by (intros E; by apply Hbt).
    by rewrite lookup_insert_eq.
  - by rewrite lookup_insert_eq.
  - rewrite lookup_insert_ne by (intros E; by apply Ht).
    by rewrite lookup_delete_eq.
  - intros p Hp1 Hp2 Hp3.
    rewrite lookup_insert_ne by done. rewrite lookup_delete_ne by done.
    rewrite lookup_insert_ne by done. by rewrite lookup_insert_ne by done.
Qed.

Lemma backup_then_replace_witness :
  let run := main all_gone noon live_args (boot (disk (JsonDoc (JObj two_records)))) in
  run.1 = Return 0%Z
  ∧ fs_log run.2
    = [Copy cache_path (cache_path +:+ ".bak.20250309-120007");
       WriteFile (cache_path +:+ ".tmp");
       Replace (cache_path +:+ ".tmp") cache_path]
  ∧ files run.2 !! cache_path = Some (JsonDoc (JObj [])).
Proof.
  destruct (backup_then_replace all_gone noon live_args
              (boot (disk (JsonDoc (JObj two_records)))) two_records "d1" ["d2"])
    as (H0 & _ & Hlog & _ & _ & _ & _ & Hcache & _);
    [vm_compute; reflexivity..|].
  split_and!; [exact H0|exact Hlog|exact Hcache].
Defined.

(** A dry run over a cache from which [ds] would be removed ends with
    status 0, touches no file and prints the summary with the number of
    removals before the dry-run notice. *)
Lemma dry_run_summary net now a w entries ds :
  dry_run a = true →
  files w !! cache a = Some (JsonDoc (JObj entries)) →
  removals net a entries = Return ds →
  let run := main net now a w in
  run.1 = Return 0%Z
  ∧ files run.2 = files w
  ∧ fs_log run.2 = fs_log w
  ∧ ∃ st out,
      to_remove st = ds ∧ checked st = length entries
      ∧ stdout run.2 = out ++ [summary_line st; "Dry-run enabled; no changes written."].
Proof.
  intros Hdry Hfile Hrm. simpl.
  destruct (dry_run_frame net now a w Hdry) as (Hf & Hl).
  revert Hf Hl. rewrite main_run, Hfile, Hdry. intros Hf Hl.
  rewrite (removals_scan _ _ _ (to_stdout (scanning_line a entries) w)) in Hrm.
  destruct (scan _ _ _ _ _) as [[st|e] w1] eqn:Hscan; simpl in *; [|done].
  injection Hrm as Hrm.
  assert ((scan net (client_of a) entries scan_init
             (to_stdout (scanning_line a entries) w)).1 = Return st) as Hst
    by (by rewrite Hscan).
  apply scan_returns in Hst as (_ & _ & Hck).
  split_and!; [done..|].
  exists st, (stdout w1). split_and!; [done..|]. by rewrite <-app_assoc.
Qed.

(** C5 (counterexample). A dry run whose cache file is missing ends with
    status 2, not 0: the guard on [exists()] comes before the dry-run
    test. *)
Lemma dry_run_missing_cache_status :
  dry_run dry_args = true
  ∧ (main all_gone noon dry_args (boot ∅)).1 = Return 2%Z
  ∧ exit_status (main all_gone noon dry_args (boot ∅)).1 ≠ 0%Z.
Proof. vm_compute. split_and!; [done..|discriminate]. Qed.

(** C5 (amended). No dry run touches a file: no backup is created and the
    cache file is as it was, whatever else happens. When the cache file
    holds a JSON object and the scan completes, however many digests
    [ds] would be removed, the run prints the summary with their number
    before the dry-run notice and ends with status 0. When the cache
    file is missing or its top level is not a JSON object the status is
    2, and a file that is not JSON makes the run raise the decode
    error. *)
Theorem dry_run_outcome net now a w :
  dry_run a = true →
  let run := main net now a w in
  files run.2 = files w
  ∧ fs_log run.2 = fs_log w
  ∧ match files w !! cache a with
    | Some (JsonDoc (JObj entries)) =>
        match removals net a entries with
        | Return ds =>
            run.1 = Return 0%Z
            ∧ ∃ st out,
                to_remove st = ds ∧ checked st = length entries
                ∧ stdout run.2
                  = out ++ [summary_line st; "Dry-run enabled; no changes written."]
        | Raise _ => True
        end
    | Some (Malformed _) => run.1 = Raise JSONDecodeError
    | None | Some (JsonDoc JNull) | Some (JsonDoc (JBool _)) | Some (JsonDoc (JInt _))
    | Some (JsonDoc (JStr _)) | Some (JsonDoc (JArr _)) => run.1 = Return 2%Z
    end.
Proof.
  intros Hdry. cbv zeta.
  destruct (dry_run_frame net now a w Hdry) as (Hf & Hl).
  split_and!; [done..|].
  destruct (files w !! cache a) as [[raw|[| | | | |entries]]|] eqn:Hfile;
    try (by rewrite main_run, Hfile).
  destruct (removals net a entries) as [ds|e] eqn:Hrm; [|done].
  destruct (dry_run_summary net now a w entries ds Hdry Hfile Hrm) as (H0 & _ & _ & Hout).
  by split.
Qed.

Lemma dry_run_outcome_witness :
  let run := main all_gone noon dry_args (boot (disk (JsonDoc (JObj two_records)))) in
  run.1 = Return 0%Z
  ∧ files run.2 = disk (JsonDoc (JObj two_records))
  ∧ fs_log run.2 = []
  ∧ ∃ st out,
      to_remove st = ["d1"; "d2"] ∧ checked st = 2%nat
      ∧ stdout run.2 = out ++ [summary_line st; "Dry-run enabled; no changes written."].
Proof.
  cbv zeta.
  pose proof (dry_run_outcome all_gone noon dry_args
                (boot (disk (JsonDoc (JObj two_records)))) eq_refl) as H.
  cbv zeta in H. destruct H as (Hf & Hl & Hm).
  assert (files (boot (disk (JsonDoc (JObj two_records)))) !! cache dry_args
          = Some (JsonDoc (JObj two_records))) as Hfile by (vm_compute; reflexivity).
  assert (removals all_gone dry_args two_records = Return ["d1"; "d2"]) as Hrm
    by (vm_compute; reflexivity).
  rewrite Hfile, Hrm in Hm. destruct Hm as (H0 & Hout).
  split_and!; [exact H0|exact Hf|exact Hl|exact Hout].
Defined.

(** C6. After a run that was not a dry run, the cache file holds a
    mapping from which the rule removes nothing; a second run against
    the same remote answers ends with status 0 and leaves every file,
    the cache among them, as the first run left it. *)
Theorem prune_twice net now now' a w entries code w1 :
  files w !! cache a = Some (JsonDoc (JObj entries)) →
  dry_run a = false →
  main net now a w = (Return code, w1) →
  ∃ pruned,
    files w1 !! cache a = Some (JsonDoc (JObj pruned))
    ∧ removals net a pruned = Return []
    ∧ (main net now' a w1).1 = Return 0%Z
    ∧ files (main net now' a w1).2 = files w1
    ∧ fs_log (main net now' a w1).2 = fs_log w1.
Proof.
  intros Hfile Hdry Hmain.
  cut (∃ pruned, files w1 !! cache a = Some (JsonDoc (JObj pruned))
                 ∧ removals net a pruned = Return []).
  { intros (pruned & Hfile1 & Hrm1). exists pruned. split_and!; [done..| | |];
      by apply (main_nothing_to_remove net now' a w1 pruned). }
  rewrite main_run, Hfile, Hdry in Hmain.
  pose proof (scan_frame net (client_of a) entries scan_init
                (to_stdout (scanning_line a entries) w)) as (Hf & _).
  pose proof (removals_scan net a entries (to_stdout (scanning_line a entries) w)) as Hrm.
  pose proof (scan_returns net (client_of a) entries scan_init
                (to_stdout (scanning_line a entries) w)) as Hret.
  destruct (scan _ _ _ _ _) as [[st|e] w0]; simpl in *; [|done].
  destruct (Hret st eq_refl) as (Hall & Hiff & _). clear Hret.
  destruct (to_remove st) as [|d ds] eqn:Hds.
  - injection Hmain as _ <-. exists entries. simpl. by rewrite Hf.
  - injection Hmain as _ <-. exists (pop_all (d :: ds) entries). split.
    + simpl. by rewrite lookup_insert_eq.
    + unfold removals.
      destruct (scan_all_kept net (client_of a) (pop_all (d :: ds) entries)
                  scan_init (boot ∅)) as (st2 & -> & ->); [|done].
      intros kv [Hin Hnot]%pop_all_elem_of.
      destruct (Hall kv Hin) as [[|] Hb]; [|done].
      destruct Hnot. apply Hiff. right. by exists kv.
Qed.

Lemma prune_twice_witness :
  ∃ pruned,
    files (main all_gone noon live_args (boot (disk (JsonDoc (JObj two_records))))).2
      !! cache live_args = Some (JsonDoc (JObj pruned))
    ∧ removals all_gone live_args pruned = Return []
    ∧ (main all_gone later live_args
         (main all_gone noon live_args (boot (disk (JsonDoc (JObj two_records))))).2).1
      = Return 0%Z
    ∧ files (main all_gone later live_args
               (main all_gone noon live_args (boot (disk (JsonDoc (JObj two_records))))).2).2
      = files (main all_gone noon live_args (boot (disk (JsonDoc (JObj two_records))))).2
    ∧ fs_log (main all_gone later live_args
                (main all_gone noon live_args (boot (disk (JsonDoc (JObj two_records))))).2).2
      = fs_log (main all_gone noon live_args (boot (disk (JsonDoc (JObj two_records))))).2.
Proof.
  apply (prune_twice all_gone noon later live_args
           (boot (disk (JsonDoc (JObj two_records)))) two_records 0%Z);
    vm_compute; reflexivity.
Defined.

End PruneTheorems.

(** ** The one-shot chain *)

Section OneShotTheorems.
Import OneShot Samples.

Ltac chain := unfold mbind, C_bind, mret, C_ret, lift, throw, invoke; simpl.

(** C3. When the retrieval returns no document, the context query
    raises [ContextException] (the specification's NoContextError) and
    the language model has received no call. *)
Theorem no_documents_no_call E user_id app_config query ctx_limit scope_type scope_list
    template end_separator db log :
  load E = Return db →
  get_context_docs E user_id query db ctx_limit scope_type scope_list = Return [] →
  process_context_query E user_id app_config query ctx_limit scope_type scope_list
    template end_separator log
  = (Raise (ContextException "No documents retrieved, please index a few documents first"),
     log).
Proof. intros Hload Hdocs. unfold process_context_query. chain. by rewrite Hload, Hdocs. Qed.

Lemma no_documents_no_call_witness :
  process_context_query (store []) "alice" () "what?" 20 None None None "" []
  = (Raise (ContextException "No documents retrieved, please index a few documents first"),
     []).
Proof. apply (no_documents_no_call (store []) _ _ _ _ _ _ _ _ ()); reflexivity. Defined.

(** The sources of a list of documents: no duplicate, and exactly the
    sources that are present and not empty. *)
Lemma unique_sources_spec docs :
  NoDup (unique_sources docs)
  ∧ ∀ s, s ∈ unique_sources docs
         ↔ s ≠ "" ∧ ∃ d, d ∈ docs ∧ metadata_get "source" (metadata d) = Some s.
Proof.
  unfold unique_sources. split; [apply NoDup_elements|].
  intros s. rewrite elem_of_elements, elem_of_list_to_set, list_elem_of_omap.
  unfold truthy_source. split.
  - intros (d & Hin & Hs).
    destruct (metadata_get "source" (metadata d)) as [s'|] eqn:Hget; [|done].
    destruct s'; simpl in Hs; [done|]. injection Hs as <-. split; [done|]. by exists d.
  - intros (Hne & d & Hin & Hget). exists d. split; [done|]. rewrite Hget.
    by destruct s.
Qed.

(** C7 (counterexample). A retrieved document whose [source] is the
    empty string: that value is a source of a retrieved document, and it
    is not among the sources of the answer. *)
Lemma empty_source_is_left_out :
  ∃ out,
    (process_context_query (store three_docs) "alice" () "what?" 20 None None None "" []).1
    = Return out
    ∧ (∃ d, d ∈ three_docs ∧ metadata_get "source" (metadata d) = Some "")
    ∧ "" ∉ sources out.
Proof.
  eexists. split; [reflexivity|]. split.
  - exists (doc "beta" ""). split; [|done]. apply elem_of_cons; right. apply elem_of_cons; by left.
  - simpl. intros H%unique_sources_spec. by destruct H.
Qed.

(** C7 (amended). When the chain answers, the sources of the answer
    hold every source of a retrieved document that is not empty, once
    each; a document without a source or with an empty one adds none. *)
Theorem sources_distinct_nonempty E user_id app_config query ctx_limit scope_type scope_list
    template end_separator db docs chunks prompt answer log :
  load E = Return db →
  get_context_docs E user_id query db ctx_limit scope_type scope_list = Return docs →
  docs ≠ [] →
  get_context_chunks E docs = Return chunks →
  get_pruned_query E app_config query (Some (template_or_default template)) chunks
  = Return prompt →
  llm_invoke E {| call_prompt := prompt; call_stop := Some [end_separator];
                  call_userid := user_id |} = Return answer →
  ∃ out,
    (process_context_query E user_id app_config query ctx_limit scope_type scope_list
       template end_separator log).1 = Return out
    ∧ output out = strip answer
    ∧ NoDup (sources out)
    ∧ ∀ s, s ∈ sources out
           ↔ s ≠ "" ∧ ∃ d, d ∈ docs ∧ metadata_get "source" (metadata d) = Some s.
Proof.
  intros Hload Hdocs Hne Hchunks Hprompt Hanswer.
  unfold process_context_query. chain. rewrite Hload, Hdocs.
  destruct docs as [|d docs]; [done|]. simpl.
  rewrite Hchunks, Hprompt, Hanswer. eexists. split; [done|]. simpl.
  split; [done|]. apply unique_sources_spec.
Qed.

Lemma sources_distinct_nonempty_witness :
  ∃ out,
    (process_context_query (store three_docs) "alice" () "what?" 20 None None None "" []).1
    = Return out
    ∧ output out = strip (" alpha|beta|gamma|" +:+ _LLM_TEMPLATE +:+ "|what? ")
    ∧ NoDup (sources out)
    ∧ ∀ s, s ∈ sources out
           ↔ s ≠ "" ∧ ∃ d, d ∈ three_docs ∧ metadata_get "source" (metadata d) = Some s.
Proof.
  apply (sources_distinct_nonempty (store three_docs) "alice" () "what?" 20 None None None ""
           () three_docs ["alpha"; "beta"; "gamma"]
           ("alpha|beta|gamma|" +:+ _LLM_TEMPLATE +:+ "|what?"));
    (reflexivity || discriminate).
Defined.

(** C8. The calls [process_query] makes: none when the pruning helper
    raises (the helper is evaluated in both modes); otherwise one, whose
    prompt is the query itself when no template is given and the helper's
    merge of query and template, with no chunk, when one is given. *)
Theorem process_query_prompt E user_id app_config query no_ctx_template end_separator log :
  ∃ calls,
    (process_query E user_id app_config query no_ctx_template end_separator log).2
    = log ++ calls
    ∧ match get_pruned_query E app_config query no_ctx_template [] with
      | Return pruned =>
          List.map call_prompt calls
          = [match no_ctx_template with Some _ => pruned | None => query end]
      | Raise _ => calls = []
      end.
Proof.
  unfold process_query. chain.
  destruct (get_pruned_query E app_config query no_ctx_template []) as [pruned|e].
  - eexists [_]. split; [by destruct (llm_invoke E _)|done].
  - exists []. by rewrite app_nil_r.
Qed.

(** C10. The context query calls the model exactly when the loader, the
    retrieval (with a document), the chunking and the pruning helper
    return, and that one call has [stop=[end_separator]], also for the
    empty separator. The plain query calls the model exactly when the
    pruning helper returns, and that one call has [stop=None] for the
    empty separator and [stop=[end_separator]] otherwise. *)
Theorem stop_argument E user_id app_config query ctx_limit scope_type scope_list
    template end_separator log :
  (∃ calls,
     (process_context_query E user_id app_config query ctx_limit scope_type scope_list
        template end_separator log).2 = log ++ calls
     ∧ match load E with
       | Return db =>
           match get_context_docs E user_id query db ctx_limit scope_type scope_list with
           | Return (d :: docs) =>
               match get_context_chunks E (d :: docs) with
               | Return chunks =>
                   match get_pruned_query E app_config query
                           (Some (template_or_default template)) chunks with
                   | Return _ => List.map call_stop calls = [Some [end_separator]]
                   | Raise _ => calls = []
                   end
               | Raise _ => calls = []
               end
           | Return [] | Raise _ => calls = []
           end
       | Raise _ => calls = []
       end)
  ∧ (∃ calls,
       (process_query E user_id app_config query template end_separator log).2
       = log ++ calls
       ∧ match get_pruned_query E app_config query template [] with
         | Return _ =>
             List.map call_stop calls
             = [if is_empty end_separator then None else Some [end_separator]]
         | Raise _ => calls = []
         end).
Proof.
  split.
  - unfold process_context_query. chain.
    destruct (load E) as [db|e]; [|exists []; by rewrite app_nil_r].
    destruct (get_context_docs E _ _ _ _ _ _) as [docs|e];
      [|exists []; by rewrite app_nil_r].
    destruct docs as [|d docs]; simpl; [exists []; by rewrite app_nil_r|].
    destruct (get_context_chunks E _) as [chunks|e]; [|exists []; by rewrite app_nil_r].
    destruct (get_pruned_query E _ _ _ _) as [prompt|e];
      [|exists []; by rewrite app_nil_r].
    eexists [_]. split; [by destruct (llm_invoke E _)|done].
  - unfold process_query. chain.
    destruct (get_pruned_query E _ _ _ _) as [prompt|e];
      [|exists []; by rewrite app_nil_r].
    eexists [_]. split; [by destruct (llm_invoke E _)|].
    simpl. by destruct (is_empty end_separator).
Qed.

Lemma stop_argument_witness :
  (∃ calls,
     (process_context_query (store three_docs) "alice" () "what?" 20 None None None "" []).2
     = [] ++ calls
     ∧ List.map call_stop calls = [Some [""]])
  ∧ (∃ calls,
       (process_query (store three_docs) "alice" () "what?" None "" []).2 = [] ++ calls
       ∧ List.map call_stop calls = [None]).
Proof.
  exact (stop_argument (store three_docs) "alice" () "what?" 20 None None None "" []).
Defined.

(** With the default separator, the two modes differ in what the model
    receives as [stop]. *)
Lemma default_separator_stops :
  List.map call_stop
    (process_context_query (store three_docs) "alice" () "what?" 20 None None None "" []).2
  = [Some [""]]
  ∧ List.map call_stop (process_query (store []) "alice" () "what?" None "" []).2
    = [None]
  ∧ List.map call_stop (process_query (store []) "alice" () "what?" None "END" []).2
    = [Some ["END"]].
Proof. done. Qed.

(** Without a template the model receives the query, with one the
    helper's merge. *)
Lemma plain_and_templated_prompts :
  List.map call_prompt (process_query (store []) "alice" () "what?" None "" []).2
  = ["what?"]
  ∧ List.map call_prompt
      (process_query (store []) "alice" () "what?" (Some "Q: {question}") "" []).2
    = ["|Q: {question}|what?"].
Proof. done. Qed.

End OneShotTheorems.

(** ** The prompt builder *)

Section PromptBuilderTheorems.
Import PromptBuilder Samples.

(** The walk returns what it started from followed by a prefix of the
    chunks it was given; that much fits, and one more chunk, when there
    is one, does not. *)
Lemma include_chunks_prefix T template query : ∀ rest included,
  measure T (merge T template query included) ≤ limit T →
  ∃ k, k ≤ length rest
       ∧ include_chunks T template query included rest = included ++ take k rest
       ∧ measure T (merge T template query (included ++ take k rest)) ≤ limit T
       ∧ (k < length rest →
          limit T < measure T (merge T template query (included ++ take (S k) rest))).
Proof.
  induction rest as [|chunk rest IH]; intros included Hfits.
  - exists 0. simpl. rewrite app_nil_r. split_and!; [done..|lia].
  - simpl. destruct (_ <=? _)%nat eqn:Hnext.
    + apply Nat.leb_le in Hnext.
      destruct (IH (included ++ [chunk]) Hnext) as (k & Hk & -> & Hin & Hout).
      exists (S k). simpl. rewrite <-!app_assoc in *. simpl in *.
      split_and!; [lia|done..|]. intros Hlt. apply Hout. lia.
    + apply Nat.leb_gt in Hnext.
      exists 0. simpl. rewrite app_nil_r. split_and!; [lia|done..|].
      intros _. by rewrite take_0.
Qed.

(** C9. When query and template alone exceed the limit, the builder
    raises [ContextTooSmallError]. When they fit and the prompt with all
    the chunks exceeds the limit, the builder includes a strict prefix of
    the chunks, whole and in their order, and the prompt with the next
    chunk exceeds the limit. *)
Theorem build_includes_fitting_prefix T template query chunks :
  (limit T < measure T (merge T template query []) →
   build T template query chunks = ContextTooSmallError)
  ∧ (measure T (merge T template query []) ≤ limit T →
     limit T < measure T (merge T template query chunks) →
     ∃ k, k < length chunks
          ∧ build T template query chunks
            = Prompt (merge T template query (take k chunks)) (take k chunks)
          ∧ measure T (merge T template query (take k chunks)) ≤ limit T
          ∧ limit T < measure T (merge T template query (take (S k) chunks))).
Proof.
  unfold build. split.
  - intros Hsmall. by rewrite (proj2 (Nat.ltb_lt _ _) Hsmall).
  - intros Hfits Hover. rewrite (proj2 (Nat.ltb_ge _ _) Hfits).
    destruct (include_chunks_prefix T template query chunks [] Hfits)
      as (k & Hk & -> & Hin & Hout). simpl in *.
    assert (k < length chunks) as Hlt.
    { destruct (decide (k = length chunks)) as [->|]; [|lia].
      rewrite firstn_all in Hin. lia. }
    exists k. split_and!; [done..|]. by apply Hout.
Qed.

Lemma build_includes_fitting_prefix_witness :
  ∃ k, k < 3
       ∧ build by_length "T:" "q" ["aaaa"; "bbbb"; "c"]
         = Prompt (merge by_length "T:" "q" (take k ["aaaa"; "bbbb"; "c"]))
             (take k ["aaaa"; "bbbb"; "c"])
       ∧ measure by_length (merge by_length "T:" "q" (take k ["aaaa"; "bbbb"; "c"])) ≤ 10
       ∧ 10 < measure by_length (merge by_length "T:" "q" (take (S k) ["aaaa"; "bbbb"; "c"])).
Proof.
  apply (proj2 (build_includes_fitting_prefix by_length "T:" "q" ["aaaa"; "bbbb"; "c"]));
    simpl; lia.
Defined.

End PromptBuilderTheorems.

(** * Further properties of the code *)

(** ** Stripping *)

Section TextFacts.
Import PyText.

Lemma lstrip_by_first p (s : string) c :
  first_char (lstrip_by p s) = Some c → p c = false.
Proof.
  induction s as [|c' s IH]; simpl; [done|].
  destruct (p c') eqn:Hc; [exact IH|]. simpl. by intros [= <-].
Qed.

Lemma rstrip_by_last p (s : string) c :
  last_char (rstrip_by p s) = Some c → p c = false.
Proof.
  induction s as [|c' s IH]; simpl; [done|].
  destruct (rstrip_by p s) as [|c2 r] eqn:Hr.
  - destruct (p c') eqn:Hc; simpl; [done|]. by intros [= <-].
  - exact IH.
Qed.

Lemma rstrip_by_first p (s : string) c :
  first_char (rstrip_by p s) = Some c → first_char s = Some c.
Proof.
  destruct s as [|c' s]; simpl; [done|].
  destruct (rstrip_by p s); [destruct (p c')|]; simpl; congruence.
Qed.

Lemma lstrip_by_fixed p (s : string) :
  (∀ c, first_char s = Some c → p c = false) → lstrip_by p s = s.
Proof. destruct s as [|c s]; simpl; [done|]. intros H. by rewrite (H c). Qed.

Lemma rstrip_by_fixed p (s : string) :
  (∀ c, last_char s = Some c → p c = false) → rstrip_by p s = s.
Proof.
  induction s as [|c s IH]; simpl; [done|]. intros H.
  destruct s as [|c2 s]; [simpl; by rewrite (H c)|].
  rewrite IH by exact H. done.
Qed.

(** What [rstrip] cuts off is a run of the stripped characters. *)
Lemma rstrip_by_split p (s : string) :
  ∃ t, s = rstrip_by p s +:+ t ∧ all_chars p t = true.
Proof.
  induction s as [|c s (t & Hs & Ht)]; simpl; [by exists ""|].
  destruct (rstrip_by p s) as [|c2 r] eqn:Hr.
  - destruct (p c) eqn:Hc.
    + exists (String c s). split; [done|]. simpl. rewrite Hc.
      change (s = t) in Hs. by subst t.
    + exists t. split; [|done]. exact (f_equal (String c) Hs).
  - exists t. split; [|done]. exact (f_equal (String c) Hs).
Qed.

(** [s.strip()] neither begins nor ends with white space, and stripping
    it again changes nothing. *)
Lemma strip_clean (s : string) :
  (∀ c, first_char (strip s) = Some c → is_space c = false)
  ∧ (∀ c, last_char (strip s) = Some c → is_space c = false)
  ∧ strip (strip s) = strip s.
Proof.
  assert (∀ c, first_char (strip s) = Some c → is_space c = false) as Hfirst.
  { intros c H. unfold strip in H. apply rstrip_by_first in H.
    by apply lstrip_by_first in H. }
  assert (∀ c, last_char (strip s) = Some c → is_space c = false) as Hlast.
  { intros c H. by apply rstrip_by_last in H. }
  split_and!; [done..|].
  unfold strip at 1. rewrite (lstrip_by_fixed _ _ Hfirst). by apply rstrip_by_fixed.
Qed.

Lemma all_chars_repeat p (t : string) ch :
  (∀ c, p c = true → c = ch) → all_chars p t = true → t = repeat_char ch (String.length t).
Proof.
  intros Hp. induction t as [|c t IH]; simpl; [done|].
  intros [Hc Ht]%andb_true_iff. by rewrite (Hp c Hc), <-IH.
Qed.

Lemma is_empty_false_ne (s : string) : is_empty s = false → s ≠ "".
Proof. by destruct s. Qed.

End TextFacts.

(** ** The scan, record by record *)

Section ScanFacts.
Import Prune PruneRules ScanRules Samples.

Ltac run := unfold mbind, M_bind, mret, M_ret, raise, print, eprint; simpl.

(** What one iteration that returns adds to the state and to the world. *)
Lemma scan_entry_accounts net c st digest entry w st' :
  (scan_entry net c st digest entry w).1 = Return st' →
  let kv := (digest, entry) in
  let w' := (scan_entry net c st digest entry w).2 in
  to_remove st' = to_remove st ++ (if is_marked net c kv then [digest] else [])
  ∧ checked st' = S (checked st)
  ∧ length (to_remove st') + failed st + not_found st
    = length (to_remove st) + failed st' + not_found st' + (if is_blank kv then 1 else 0)
  ∧ requests w' = requests w ++ (if is_blank kv then [] else [request_for c kv])
  ∧ length (stdout w') + failed st + not_found st
    = length (stdout w) + failed st' + not_found st'.
Proof.
  unfold scan_entry, is_marked, is_blank, request_for, marked. simpl.
  destruct entry as [| | | | |fields]; try done. run.
  destruct (is_empty _) eqn:Hd.
  - intros [= <-]. simpl. rewrite !length_app, !app_nil_r. simpl. split_and!; [done..|lia|done|lia].
  - rewrite get_doc_status_run.
    destruct (doc_status _ _ _) as [[status code]|e]; [|done]. simpl.
    destruct (code =? 404)%Z; simpl.
    + intros [= <-]. simpl. rewrite !length_app. simpl. split_and!; [done..|lia|done|lia].
    + destruct (is_failed_status status); simpl; intros [= <-]; simpl;
        rewrite ?length_app, ?app_nil_r; simpl; split_and!; try done; lia.
Qed.

(** What a scan that returns adds to the state and to the world. *)
Lemma scan_accounts net c items : ∀ st w st',
  (scan net c items st w).1 = Return st' →
  let w' := (scan net c items st w).2 in
  to_remove st' = to_remove st ++ marked_digests net c items
  ∧ checked st' = (checked st + length items)%nat
  ∧ length (to_remove st') + failed st + not_found st
    = length (to_remove st) + failed st' + not_found st'
      + length (List.filter is_blank items)
  ∧ requests w'
    = requests w ++ List.map (request_for c) (List.filter (λ kv, negb (is_blank kv)) items)
  ∧ length (stdout w') + failed st + not_found st
    = length (stdout w) + failed st' + not_found st'.
Proof.
  induction items as [|[digest entry] rest IH]; intros st w st' Hrun.
  - simpl in *. injection Hrun as <-. rewrite !app_nil_r. split_and!; (done || lia).
  - rewrite scan_cons in Hrun |- *. simpl.
    pose proof (scan_entry_accounts net c st digest entry w) as Hone.
    destruct (scan_entry net c st digest entry w) as [[st1|e] w1]; simpl in *; [|done].
    destruct (Hone st1 eq_refl) as (H1 & H2 & H3 & H4 & H5).
    destruct (IH st1 w1 st' Hrun) as (I1 & I2 & I3 & I4 & I5).
    unfold marked_digests in *. simpl. split_and!.
    + rewrite I1, H1. destruct (is_marked net c (digest, entry)); simpl;
        by rewrite <-app_assoc.
    + lia.
    + destruct (is_blank (digest, entry)); simpl; lia.
    + rewrite I4, H4. destruct (is_blank (digest, entry)); simpl;
        by rewrite <-app_assoc.
    + lia.
Qed.

End ScanFacts.

(** ** The scan and the pruned cache *)

Section ScanTheorems.
Import Prune PruneRules ScanRules Samples.

Lemma NoDup_map_filter {A B} (f : A → B) (p : A → bool) (l : list A) :
  NoDup (List.map f l) → NoDup (List.map f (List.filter p l)).
Proof.
  induction l as [|x l IH]; simpl; [done|].
  intros [Hx Hl]%NoDup_cons. destruct (p x); simpl; [|by apply IH].
  apply NoDup_cons. split; [|by apply IH].
  intros Hin. apply Hx. apply list_elem_of_In, in_map_iff in Hin as (y & Hy & Hin).
  apply list_elem_of_In, in_map_iff. exists y. split; [done|].
  by apply filter_In in Hin as [? _].
Qed.

Lemma filter_length_le {A} (p : A → bool) (l : list A) :
  length (List.filter p l) ≤ length l.
Proof. induction l as [|x l IH]; simpl; [done|]. destruct (p x); simpl; lia. Qed.

(** X1. A scan that completes has marked exactly the digests of the
    records the rule marks, in the order of the cache, each record
    counted once; digests that are distinct in the cache are distinct in
    the removal list. *)
Theorem scan_marks_in_cache_order net c entries w st :
  (scan net c entries scan_init w).1 = Return st →
  to_remove st = marked_digests net c entries
  ∧ checked st = length entries
  ∧ length (to_remove st) ≤ length entries
  ∧ (NoDup (List.map fst entries) → NoDup (to_remove st)).
Proof.
  intros Hrun. destruct (scan_accounts _ _ _ _ _ _ Hrun) as (H1 & H2 & _).
  simpl in H1, H2. rewrite H1. unfold marked_digests. split_and!; [done..| |].
  - rewrite length_map. apply filter_length_le.
  - apply NoDup_map_filter.
Qed.

Lemma scan_marks_in_cache_order_witness :
  to_remove (Build_scan_state ["d1"; "d2"] 2 0 1)
  = marked_digests all_gone (client_of live_args) two_records
  ∧ checked (Build_scan_state ["d1"; "d2"] 2 0 1) = length two_records
  ∧ length (to_remove (Build_scan_state ["d1"; "d2"] 2 0 1)) ≤ length two_records
  ∧ (NoDup (List.map fst two_records)
     → NoDup (to_remove (Build_scan_state ["d1"; "d2"] 2 0 1))).
Proof.
  apply (scan_marks_in_cache_order all_gone (client_of live_args) two_records (boot ∅)).
  vm_compute. reflexivity.
Defined.

(** X2. After a scan that completes, the removal list is as long as the
    two counters of the summary and the number of records with a blank
    [doc_id] together: a blank record is removed without being counted
    as failed or as not found. *)
Theorem scan_counters net c entries w st :
  (scan net c entries scan_init w).1 = Return st →
  length (to_remove st)
  = failed st + not_found st + length (List.filter is_blank entries).
Proof.
  intros Hrun. destruct (scan_accounts _ _ _ _ _ _ Hrun) as (_ & _ & H3 & _).
  simpl in H3. lia.
Qed.

Lemma scan_counters_witness :
  length (to_remove (Build_scan_state ["d1"; "d2"] 2 0 1))
  = failed (Build_scan_state ["d1"; "d2"] 2 0 1)
    + not_found (Build_scan_state ["d1"; "d2"] 2 0 1)
    + length (List.filter is_blank two_records).
Proof.
  apply (scan_counters all_gone (client_of live_args) two_records (boot ∅)).
  vm_compute. reflexivity.
Defined.

(** X3. A scan that completes has sent one request for every record
    whose [doc_id] is not blank, in the order of the cache, to
    [/v3/documents/<doc_id>] with the stripped id, and none for the
    others. *)
Theorem scan_requests net c entries w st :
  (scan net c entries scan_init w).1 = Return st →
  requests (scan net c entries scan_init w).2
  = requests w
    ++ List.map (request_for c) (List.filter (λ kv, negb (is_blank kv)) entries).
Proof.
  intros Hrun. by destruct (scan_accounts _ _ _ _ _ _ Hrun) as (_ & _ & _ & H4 & _).
Qed.

Lemma scan_requests_witness :
  requests (scan all_gone (client_of live_args) two_records scan_init (boot ∅)).2
  = requests (boot ∅)
    ++ List.map (request_for (client_of live_args))
         (List.filter (λ kv, negb (is_blank kv)) two_records).
Proof.
  apply (scan_requests all_gone (client_of live_args) two_records (boot ∅)
           (Build_scan_state ["d1"; "d2"] 2 0 1)).
  vm_compute. reflexivity.
Defined.

(** X4. A scan that completes has printed one line for every removal it
    counts as failed or as not found, and nothing else: the removal of
    a record with a blank [doc_id] is silent. *)
Theorem scan_console net c entries w st :
  (scan net c entries scan_init w).1 = Return st →
  length (stdout (scan net c entries scan_init w).2)
  = length (stdout w) + failed st + not_found st.
Proof.
  intros Hrun. destruct (scan_accounts _ _ _ _ _ _ Hrun) as (_ & _ & _ & _ & H5).
  simpl in H5. lia.
Qed.

Lemma scan_console_witness :
  length (stdout (scan all_gone (client_of live_args) two_records scan_init (boot ∅)).2)
  = length (stdout (boot ∅)) + failed (Build_scan_state ["d1"; "d2"] 2 0 1)
    + not_found (Build_scan_state ["d1"; "d2"] 2 0 1).
Proof.
  apply (scan_console all_gone (client_of live_args) two_records (boot ∅)).
  vm_compute. reflexivity.
Defined.

Lemma filter_filter_bool {A} (f g : A → bool) (l : list A) :
  List.filter f (List.filter g l) = List.filter (λ x, g x && f x) l.
Proof.
  induction l as [|x l IH]; simpl; [done|].
  destruct (g x); simpl; [destruct (f x)|]; by rewrite IH.
Qed.

Lemma pop_all_as_filter ds : ∀ cache,
  pop_all ds cache = List.filter (λ kv, negb (existsb (String.eqb kv.1) ds)) cache.
Proof.
  induction ds as [|d ds IH]; intros cache.
  - simpl. induction cache as [|kv cache IHc]; simpl; [done|]. by rewrite <-IHc.
  - unfold pop_all in *. simpl. rewrite IH. unfold dict_pop. rewrite filter_filter_bool.
    apply filter_ext. intros kv. rewrite negb_orb. by rewrite (String.eqb_sym d).
Qed.

(** X5. Popping a list of digests leaves, in their order and with their
    values, the records whose digest is not in the list; a digest that
    is not a key is skipped without an error, so popping digests the
    cache does not hold changes nothing. *)
Theorem pop_all_filter ds cache :
  pop_all ds cache
  = List.filter (λ kv, negb (existsb (String.eqb kv.1) ds)) cache
  ∧ ((∀ kv, kv ∈ cache → kv.1 ∉ ds) → pop_all ds cache = cache).
Proof.
  split; [apply pop_all_as_filter|].
  intros Hfree. rewrite pop_all_as_filter.
  induction cache as [|kv cache IHc]; simpl; [done|].
  assert (existsb (String.eqb kv.1) ds = false) as ->.
  { apply not_true_is_false. intros (d & Hin & Hd%String.eqb_eq)%existsb_exists.
    apply (Hfree kv); [apply elem_of_cons; by left|]. rewrite Hd. by apply list_elem_of_In. }
  simpl. f_equal. apply IHc. intros kv' Hin. apply Hfree, elem_of_cons. by right.
Qed.

End ScanTheorems.

(** ** Files, headers and the remote check *)

Section PruneParts.
Import Prune PruneRules ScanRules Samples PyText.

Ltac run := unfold mbind, M_bind, mret, M_ret, raise, print, eprint; simpl.

(** X6. What [save_cache] writes, [load_cache] reads back: the save
    succeeds, the cache path then loads as the saved data, the temporary
    file is gone (also one that was there before), and no other file
    has changed. *)
Theorem save_then_load path data w :
  let saved := save_cache path data w in
  saved.1 = Return ()
  ∧ load_cache path saved.2 = (Return data, saved.2)
  ∧ files saved.2 !! add_suffix path ".tmp" = None
  ∧ (∀ p, p ≠ path → p ≠ add_suffix path ".tmp" → files saved.2 !! p = files w !! p)
  ∧ requests saved.2 = requests w ∧ stdout saved.2 = stdout w.
Proof.
  pose proof (add_suffix_fresh path ".tmp") as Hfresh.
  unfold save_cache, write_json, replace, load_cache. run.
  rewrite lookup_insert_eq. simpl. rewrite lookup_insert_eq.
  split_and!; try done.
  - rewrite lookup_insert_ne by (intros E; by apply Hfresh). by rewrite lookup_delete_eq.
  - intros p Hp Ht. rewrite lookup_insert_ne by done. rewrite lookup_delete_ne by done.
    by rewrite lookup_insert_ne by done.
Qed.

(** X7. The headers of the client: [accept] is always sent; [X-API-Key]
    is sent with the key exactly when a key that is not empty is given,
    [Authorization] with [Bearer <token>] exactly when a token that is
    not empty is given (both when both are given); no header is sent
    twice. *)
Theorem headers_sent api_key token :
  let h := _headers api_key token in
  let get k := snd <$> List.find (λ kv, String.eqb k kv.1) h in
  get "accept" = Some "application/json"
  ∧ get "X-API-Key" = (if opt_truthy api_key then api_key else None)
  ∧ get "Authorization"
    = (if opt_truthy token then Some ("Bearer " +:+ default "" token) else None)
  ∧ NoDup (List.map fst h)
  ∧ ∀ kv, kv ∈ h → kv.1 ∈ ["accept"; "X-API-Key"; "Authorization"].
Proof.
  unfold _headers.
  destruct api_key as [[|c k]|], token as [[|c' t]|]; simpl;
    (split_and!; [done..| |]).
  all: try (intros kv Hin%list_elem_of_In; simpl in Hin; apply list_elem_of_In; simpl;
            intuition (subst; simpl; auto)).
  all: apply NoDup_ListNoDup; repeat (constructor; [simpl; intuition discriminate|]);
    constructor.
Qed.

(** X8. [get_doc_status] reports a status only from an answer below 400
    whose body is a JSON object with a [results] object; with a
    transport error, a 404 or any other status from 400 on, the status
    is [None], whatever the body says. *)
Theorem status_only_from_good_answer net c doc_id s code :
  doc_status net c doc_id = Return (Some s, code) →
  (code < 400)%Z
  ∧ ∃ top results,
      net {| req_client := c; req_path := "/v3/documents/" +:+ doc_id |}
      = Response code (Some (JObj top))
      ∧ assoc "results" top = Some (JObj results)
      ∧ reported results = Some s.
Proof.
  unfold doc_status, get_doc_status, http_get, reported. run.
  destruct (net _) as [rs|code' body]; [done|].
  destruct (code' =? 404)%Z; [done|].
  destruct (400 <=? code')%Z eqn:Hc; [done|]. apply Z.leb_gt in Hc.
  destruct body as [[| | | | |top]|]; try done.
  - destruct (assoc "results" top) as [[| | | | |results]|] eqn:Hres; try done.
    simpl. intros [= Hs <-]. split; [done|]. exists top, results. split_and!; [done..|].
    by destruct (or_ _ _).
Qed.

Lemma status_only_from_good_answer_witness :
  (200 < 400)%Z
  ∧ ∃ top results,
      (λ _, Response 200 (Some (JObj [("results", JObj [("status", JStr "FAILED")])])))
        {| req_client := client_of live_args; req_path := "/v3/documents/" +:+ "x1" |}
      = Response 200 (Some (JObj top))
      ∧ assoc "results" top = Some (JObj results)
      ∧ reported results = Some "FAILED".
Proof.
  apply (status_only_from_good_answer
           (λ _, Response 200 (Some (JObj [("results", JObj [("status", JStr "FAILED")])])))
           (client_of live_args) "x1" "FAILED" 200).
  reflexivity.
Defined.

(** X9. An answer below 400 without a usable status keeps the record: a
    body that is not JSON, a JSON body that is not an object, an
    object without [results], or a [results] object in which both
    [ingestion_status] and [status] are missing or [null], all give the
    status [None], and the rule does not mark the record. *)
Theorem unknown_status_keeps_record net c fields code body :
  is_empty (doc_id_of (dict_get fields "doc_id")) = false →
  net {| req_client := c;
         req_path := "/v3/documents/" +:+ doc_id_of (dict_get fields "doc_id") |}
  = Response code body →
  (code < 400)%Z →
  match body with
  | None => True
  | Some (JObj top) =>
      match assoc "results" top with
      | None => True
      | Some (JObj results) =>
          dict_get results "ingestion_status" = JNull ∧ dict_get results "status" = JNull
      | Some _ => False
      end
  | Some _ => True
  end →
  doc_status net c (doc_id_of (dict_get fields "doc_id")) = Return (None, code)
  ∧ marked net c (JObj fields) = Return false.
Proof.
  intros Hid Hnet Hcode Hbody.
  assert (doc_status net c (doc_id_of (dict_get fields "doc_id")) = Return (None, code)) as Hst.
  { unfold doc_status, get_doc_status, http_get. run.
    rewrite Hnet.
    destruct (code =? 404)%Z eqn:H404; [apply Z.eqb_eq in H404; lia|].
    destruct (400 <=? code)%Z eqn:H400; [apply Z.leb_le in H400; lia|].
    destruct body as [[| | | | |top]|]; try done.
    destruct (assoc "results" top) as [[| | | | |results]|]; try done.
    destruct Hbody as [Hi Hs]. simpl. unfold or_. by rewrite Hi, Hs. }
  split; [done|]. unfold marked. rewrite Hid, Hst.
  destruct (code =? 404)%Z eqn:H404; [apply Z.eqb_eq in H404; lia|done].
Qed.

Lemma unknown_status_keeps_record_witness :
  doc_status (λ _, Response 200 (Some (JObj [("message", JStr "ok")])))
    (client_of live_args) (doc_id_of (dict_get [("doc_id", JStr " x1 ")] "doc_id"))
  = Return (None, 200%Z)
  ∧ marked (λ _, Response 200 (Some (JObj [("message", JStr "ok")])))
      (client_of live_args) (JObj [("doc_id", JStr " x1 ")]) = Return false.
Proof.
  apply (unknown_status_keeps_record
           (λ _, Response 200 (Some (JObj [("message", JStr "ok")])))
           (client_of live_args) [("doc_id", JStr " x1 ")] 200
           (Some (JObj [("message", JStr "ok")])));
    (reflexivity || exact I).
Defined.

(** X10. [ingestion_status] wins over [status]: when the [results]
    object of an answer below 400 has a truthy [ingestion_status], the
    record is marked or kept by that value alone, whatever [status]
    holds. *)
Theorem ingestion_status_wins net c fields code top results v :
  is_empty (doc_id_of (dict_get fields "doc_id")) = false →
  net {| req_client := c;
         req_path := "/v3/documents/" +:+ doc_id_of (dict_get fields "doc_id") |}
  = Response code (Some (JObj top)) →
  (code < 400)%Z →
  assoc "results" top = Some (JObj results) →
  dict_get results "ingestion_status" = v →
  truthy v = true →
  marked net c (JObj fields) = Return (is_failed_status (Some (str v))).
Proof.
  intros Hid Hnet Hcode Hres Hv Htruthy.
  unfold marked, doc_status, get_doc_status, http_get. run.
  rewrite Hid, Hnet.
  destruct (code =? 404)%Z eqn:H404; [apply Z.eqb_eq in H404; lia|].
  destruct (400 <=? code)%Z eqn:H400; [apply Z.leb_le in H400; lia|].
  rewrite Hres. simpl. unfold or_. rewrite Hv, Htruthy, H404. simpl.
  by destruct v.
Qed.

Lemma ingestion_status_wins_witness :
  marked (λ _, Response 200 (Some (JObj [("results",
            JObj [("ingestion_status", JStr "success"); ("status", JStr "failed")])])))
    (client_of live_args) (JObj [("doc_id", JStr "x1")])
  = Return (is_failed_status (Some (str (JStr "success")))).
Proof.
  apply (ingestion_status_wins _ _ [("doc_id", JStr "x1")] 200
           [("results", JObj [("ingestion_status", JStr "success"); ("status", JStr "failed")])]
           [("ingestion_status", JStr "success"); ("status", JStr "failed")]);
    reflexivity.
Defined.

End PruneParts.

(** ** Whole runs *)

Section RunTheorems.
Import Prune PruneRules ScanRules Samples PyText.

(** X11. A dry run is a faithful preview: on the same files and remote
    answers it sends the same requests as the live run and prints the
    same lines up to and including the summary; the two differ in
    their last line only. *)
Theorem dry_run_previews_live net now a w entries ds :
  files w !! cache a = Some (JsonDoc (JObj entries)) →
  removals net a entries = Return ds →
  let dry := main net now (with_dry_run true a) w in
  let live := main net now (with_dry_run false a) w in
  requests dry.2 = requests live.2
  ∧ ∃ out last,
      stdout dry.2 = out ++ ["Dry-run enabled; no changes written."]
      ∧ stdout live.2 = out ++ [last].
Proof.
  intros Hfile Hrm. cbv zeta. rewrite !main_run.
  change (cache (with_dry_run true a)) with (cache a).
  change (cache (with_dry_run false a)) with (cache a).
  change (dry_run (with_dry_run true a)) with true.
  change (dry_run (with_dry_run false a)) with false.
  rewrite Hfile.
  change (client_of (with_dry_run true a)) with (client_of a).
  change (client_of (with_dry_run false a)) with (client_of a).
  change (scanning_line (with_dry_run true a) entries) with (scanning_line a entries).
  change (scanning_line (with_dry_run false a) entries) with (scanning_line a entries).
  rewrite (removals_scan _ _ _ (to_stdout (scanning_line a entries) w)) in Hrm.
  destruct (scan _ _ _ _ _) as [[st|e] w1]; simpl in *; [|done].
  destruct (to_remove st) as [|d rest]; (split; [reflexivity|]);
    exists (stdout w1 ++ [summary_line st]); eexists; split; reflexivity.
Qed.

Lemma dry_run_previews_live_witness :
  requests (main all_gone noon (with_dry_run true live_args)
              (boot (disk (JsonDoc (JObj two_records))))).2
  = requests (main all_gone noon (with_dry_run false live_args)
                (boot (disk (JsonDoc (JObj two_records))))).2
  ∧ ∃ out last,
      stdout (main all_gone noon (with_dry_run true live_args)
                (boot (disk (JsonDoc (JObj two_records))))).2
      = out ++ ["Dry-run enabled; no changes written."]
      ∧ stdout (main all_gone noon (with_dry_run false live_args)
                  (boot (disk (JsonDoc (JObj two_records))))).2
        = out ++ [last].
Proof.
  apply (dry_run_previews_live all_gone noon live_args
           (boot (disk (JsonDoc (JObj two_records)))) two_records ["d1"; "d2"]);
    vm_compute; reflexivity.
Defined.

(** X12. A live run that marks nothing writes nothing: no backup, no
    temporary file, the cache file untouched; it says so on the console
    and ends with status 0. *)
Theorem live_run_without_removals net now a w entries :
  dry_run a = false →
  files w !! cache a = Some (JsonDoc (JObj entries)) →
  removals net a entries = Return [] →
  let run := main net now a w in
  run.1 = Return 0%Z
  ∧ files run.2 = files w
  ∧ fs_log run.2 = fs_log w
  ∧ ∃ out, stdout run.2 = out ++ ["No entries to remove."].
Proof.
  intros Hdry Hfile Hrm. simpl. rewrite main_run, Hfile, Hdry.
  rewrite (removals_scan _ _ _ (to_stdout (scanning_line a entries) w)) in Hrm.
  pose proof (scan_frame net (client_of a) entries scan_init
                (to_stdout (scanning_line a entries) w)) as (Hf & Hl & _).
  destruct (scan _ _ _ _ _) as [[st|e] w1]; simpl in *; [|done].
  injection Hrm as ->. simpl. split_and!; [done..|]. by eexists.
Qed.

Lemma live_run_without_removals_witness :
  let run := main (λ _, Response 200 None) noon live_args
               (boot (disk (JsonDoc (JObj [("d1", JObj [("doc_id", JStr "x1")])])))) in
  run.1 = Return 0%Z
  ∧ files run.2 = files (boot (disk (JsonDoc (JObj [("d1", JObj [("doc_id", JStr "x1")])]))))
  ∧ fs_log run.2 = fs_log (boot (disk (JsonDoc (JObj [("d1", JObj [("doc_id", JStr "x1")])]))))
  ∧ ∃ out, stdout run.2 = out ++ ["No entries to remove."].
Proof.
  apply (live_run_without_removals (λ _, Response 200 None) noon live_args
           (boot (disk (JsonDoc (JObj [("d1", JObj [("doc_id", JStr "x1")])]))))
           [("d1", JObj [("doc_id", JStr "x1")])]);
    vm_compute; reflexivity.
Defined.

(** X13. [main] writes to the error stream exactly when it returns 2:
    then it writes one line there, nothing on the console, sends no
    request and touches no file; otherwise the error stream is as it
    was. *)
Theorem stderr_iff_status_two net now a w :
  let run := main net now a w in
  (run.1 = Return 2%Z
   ∧ (∃ line, stderr run.2 = stderr w ++ [line])
   ∧ stdout run.2 = stdout w ∧ requests run.2 = requests w
   ∧ files run.2 = files w ∧ fs_log run.2 = fs_log w)
  ∨ (run.1 ≠ Return 2%Z ∧ stderr run.2 = stderr w).
Proof.
  simpl. rewrite main_run.
  destruct (files w !! cache a) as [[raw|[| | | | |entries]]|];
    try (left; split_and!; [done|by eexists|done..]);
    try (right; split; [discriminate|done]).
  pose proof (scan_frame net (client_of a) entries scan_init
                (to_stdout (scanning_line a entries) w)) as (_ & _ & He).
  right. destruct (scan _ _ _ _ _) as [[st|e] w1]; simpl in *; [|done].
  destruct (dry_run a); [done|]. by destruct (to_remove st).
Qed.

Lemma same_key_same_record {A} (l : list (string * A)) kv kv' :
  NoDup (List.map fst l) → kv ∈ l → kv' ∈ l → kv.1 = kv'.1 → kv = kv'.
Proof.
  induction l as [|x l IH]; simpl; [by intros _ ?%elem_of_nil|].
  intros [Hx Hl]%NoDup_cons [->|Hin]%elem_of_cons [->|Hin']%elem_of_cons Hk; try done.
  - destruct Hx. rewrite Hk. apply list_elem_of_In, in_map. by apply list_elem_of_In.
  - destruct Hx. rewrite <-Hk. apply list_elem_of_In, in_map. by apply list_elem_of_In.
  - by apply IH.
Qed.

(** X14. After a live run with removals over a cache with distinct
    digests, the cache file holds exactly the records the rule does not
    mark, with their values and in their order. *)
Theorem live_run_keeps_unmarked net now a w entries d ds :
  dry_run a = false →
  files w !! cache a = Some (JsonDoc (JObj entries)) →
  removals net a entries = Return (d :: ds) →
  NoDup (List.map fst entries) →
  files (main net now a w).2 !! cache a
  = Some (JsonDoc (JObj (List.filter (λ kv, negb (is_marked net (client_of a) kv)) entries))).
Proof.
  intros Hdry Hfile Hrm Hkeys. rewrite main_run, Hfile, Hdry.
  pose proof (scan_accounts net (client_of a) entries scan_init
                (to_stdout (scanning_line a entries) w)) as Hacc.
  rewrite (removals_scan _ _ _ (to_stdout (scanning_line a entries) w)) in Hrm.
  destruct (scan _ _ _ _ _) as [[st|e] w1]; simpl in *; [|done].
  injection Hrm as Hrm. destruct (Hacc st eq_refl) as (Hmarks & _). simpl in Hmarks.
  rewrite Hrm. simpl. rewrite lookup_insert_eq. do 3 f_equal.
  change (pop_all ds (dict_pop d entries)) with (pop_all (d :: ds) entries).
  rewrite <-Hrm, Hmarks. rewrite pop_all_as_filter.
  clear -Hkeys. set (c := client_of a). clearbody c.
  assert (∀ kv, kv ∈ entries →
            existsb (String.eqb kv.1) (marked_digests net c entries) = is_marked net c kv) as Hsame.
  { intros kv Hin. destruct (is_marked net c kv) eqn:Hm.
    - apply existsb_exists. exists kv.1. split; [|apply String.eqb_refl].
      unfold marked_digests. apply in_map, filter_In. split; [by apply list_elem_of_In|done].
    - apply not_true_is_false. intros (k & Hk & Heq%String.eqb_eq)%existsb_exists.
      unfold marked_digests in Hk. apply in_map_iff in Hk as (kv' & <- & Hkv').
      apply filter_In in Hkv' as [Hin' Hm']. apply list_elem_of_In in Hin'.
      rewrite (same_key_same_record entries kv kv' Hkeys Hin Hin' Heq) in Hm. congruence. }
  apply filter_ext_in. intros kv Hin. f_equal. by apply Hsame, list_elem_of_In.
Qed.

Lemma live_run_keeps_unmarked_witness :
  files (main all_gone noon live_args (boot (disk (JsonDoc (JObj two_records))))).2
    !! cache live_args
  = Some (JsonDoc (JObj (List.filter
                           (λ kv, negb (is_marked all_gone (client_of live_args) kv))
                           two_records))).
Proof.
  apply (live_run_keeps_unmarked all_gone noon live_args
           (boot (disk (JsonDoc (JObj two_records)))) two_records "d1" ["d2"]);
    try (vm_compute; reflexivity).
  apply NoDup_ListNoDup. repeat (constructor; [simpl; intuition discriminate|]). constructor.
Defined.

End RunTheorems.

(** ** Addresses and time stamps *)

Section AddressFacts.
Import Prune PruneRules ScanRules Samples PyText.

(** X15. The base URL of the client never ends with a slash, and differs
    from the given one only by the slashes cut from its end. *)
Theorem base_url_without_trailing_slash a :
  endswith_char "/" (base_url (client_of a)) = false
  ∧ ∃ n, base a = base_url (client_of a) +:+ repeat_char "/" n.
Proof.
  unfold client_of, rstrip_char. simpl. split.
  - unfold endswith_char.
    destruct (last_char _) as [c|] eqn:Hlast; [|done].
    apply (rstrip_by_last (Ascii.eqb "/")) in Hlast. by rewrite Ascii.eqb_sym.
  - destruct (rstrip_by_split (Ascii.eqb "/") (base a)) as (t & Hs & Ht).
    exists (String.length t). rewrite Hs at 1. f_equal.
    apply (all_chars_repeat (Ascii.eqb "/")); [|done].
  intros c Hc. by apply Ascii.eqb_eq in Hc.
Qed.

(** X16. Every request of a scan that completes goes through the given
    client to [/v3/documents/<id>], where the id is not empty and neither
    begins nor ends with white space. *)
Theorem scan_request_ids net c entries w st rq :
  (scan net c entries scan_init w).1 = Return st →
  rq ∈ drop (length (requests w)) (requests (scan net c entries scan_init w).2) →
  req_client rq = c
  ∧ ∃ id, req_path rq = "/v3/documents/" +:+ id
          ∧ id ≠ ""
          ∧ (∀ ch, first_char id = Some ch → is_space ch = false)
          ∧ (∀ ch, last_char id = Some ch → is_space ch = false).
Proof.
  intros Hrun. destruct (scan_accounts _ _ _ _ _ _ Hrun) as (_ & _ & _ & H4 & _).
  destruct (scan_returns _ _ _ _ _ _ Hrun) as (Hall & _).
  simpl in H4. rewrite H4, drop_app_length.
  intros (kv & <- & Hkv)%list_elem_of_In%in_map_iff.
  apply filter_In in Hkv as [Hin Hblank]. apply negb_true_iff in Hblank.
  destruct (Hall kv) as [b Hb]; [by apply list_elem_of_In|].
  unfold request_for, is_blank, marked in *. split; [done|].
  destruct kv.2 as [| | | | |fields]; try done. simpl.
  eexists. split; [done|]. split; [by apply is_empty_false_ne|].
  unfold doc_id_of. split; apply strip_clean.
Qed.

End AddressFacts.

Section StampFacts.
Import Prune PruneRules ScanRules Samples PyText.

Lemma scan_request_ids_witness :
  req_client {| req_client := client_of live_args; req_path := "/v3/documents/x1" |}
  = client_of live_args
  ∧ ∃ id, req_path {| req_client := client_of live_args; req_path := "/v3/documents/x1" |}
          = "/v3/documents/" +:+ id
          ∧ id ≠ ""
          ∧ (∀ ch, first_char id = Some ch → is_space ch = false)
          ∧ (∀ ch, last_char id = Some ch → is_space ch = false).
Proof.
  apply (scan_request_ids all_gone (client_of live_args)
           [("d1", JObj [("doc_id", JStr "  x1 ")])] (boot ∅)
           (Build_scan_state ["d1"] 1 0 1)).
  - vm_compute. reflexivity.
  - vm_compute. constructor.
Defined.

Lemma zfill_two (x : N) :
  (x < 100)%N →
  zfill 2 (pretty x)
  = String (pretty_N_char (x `div` 10)) (String (pretty_N_char (x `mod` 10)) "").
Proof.
  intros Hx. destruct (decide (x < 10)%N).
  - rewrite pretty_N_one_digit by done.
    rewrite N.div_small, N.mod_small by done. done.
  - by rewrite pretty_N_two_digits by lia.
Qed.

Lemma zfill_two_inj (x y : N) :
  (x < 100)%N → (y < 100)%N →
  pretty_N_char (x `div` 10) = pretty_N_char (y `div` 10) →
  pretty_N_char (x `mod` 10) = pretty_N_char (y `mod` 10) →
  x = y.
Proof.
  intros Hx Hy Hq Hr.
  apply pretty_N_char_inj in Hq;
    [|apply N.Div0.div_lt_upper_bound; lia|apply N.Div0.div_lt_upper_bound; lia].
  apply pretty_N_char_inj in Hr; [|apply N.mod_lt; lia|apply N.mod_lt; lia].
  rewrite (N.div_mod x 10), (N.div_mod y 10) by lia. by rewrite Hq, Hr.
Qed.

(** The stamp determines the broken-down time it was printed from. *)
Lemma strftime_distinct t t' :
  valid_time t = true → valid_time t' = true →
  strftime t = strftime t' → t = t'.
Proof.
  unfold valid_time. rewrite !andb_true_iff, !N.leb_le.
  intros ((((((((Hy1 & Hy2) & Hm1) & Hm2) & Hd1) & Hd2) & Hh) & Hmin) & Hs).
  intros ((((((((Hy1' & Hy2') & Hm1') & Hm2') & Hd1') & Hd2') & Hh') & Hmin') & Hs').
  unfold strftime.
  destruct (pretty_N_four_digits (tm_year t)) as (a1 & a2 & a3 & a4 & Hy & _); [lia|].
  destruct (pretty_N_four_digits (tm_year t')) as (b1 & b2 & b3 & b4 & Hy' & _); [lia|].
  rewrite !zfill_two by lia. intros H.
  assert (pretty (tm_year t) = pretty (tm_year t')) as Hyear.
  { rewrite Hy, Hy' in H |- *. cbn [String.append] in H. by injection H as -> -> -> ->. }
  rewrite Hy, Hy' in H. cbn [String.append] in H.
  injection H as _ _ _ _ Hq1 Hr1 Hq2 Hr2 Hq3 Hr3 Hq4 Hr4 Hq5 Hr5.
  apply (inj pretty) in Hyear.
  apply zfill_two_inj in Hr1; [|lia..|done].
  apply zfill_two_inj in Hr2; [|lia..|done].
  apply zfill_two_inj in Hr3; [|lia..|done].
  apply zfill_two_inj in Hr4; [|lia..|done].
  apply zfill_two_inj in Hr5; [|lia..|done].
  destruct t, t'. simpl in *. by subst.
Qed.

(** X17. For one cache path, two valid broken-down local times that
    differ in a field, from the year to the second, give different backup
    paths. *)
Theorem backup_paths_distinct path t t' :
  valid_time t = true → valid_time t' = true → t ≠ t' →
  add_suffix path (".bak." +:+ strftime t) ≠ add_suffix path (".bak." +:+ strftime t').
Proof.
  intros Ht Ht' Hne Heq. apply Hne, strftime_distinct; [done..|].
  unfold add_suffix in Heq. apply append_inv_head in Heq.
  by apply (append_inv_head ".bak.") in Heq.
Qed.

Lemma backup_paths_distinct_witness :
  add_suffix cache_path (".bak." +:+ strftime noon)
  ≠ add_suffix cache_path (".bak." +:+ strftime later).
Proof. apply (backup_paths_distinct cache_path noon later); (reflexivity || discriminate). Defined.

End StampFacts.

(** ** The chain: failures, calls and outputs *)

Section ChainTheorems.
Import OneShot Samples ChainSamples PyText.

Ltac chain := unfold mbind, C_bind, mret, C_ret, lift, throw, invoke; simpl.

(** X18. The pruning helper runs before the model in the plain mode too,
    also when no template is given: when it raises, [process_query]
    raises the same exception and the model receives no call. *)
Theorem process_query_helper_failure E user_id app_config query no_ctx_template
    end_separator e log :
  get_pruned_query E app_config query no_ctx_template [] = Raise e →
  process_query E user_id app_config query no_ctx_template end_separator log
  = (Raise e, log).
Proof. intros H. unfold process_query. chain. by rewrite H. Qed.

Lemma process_query_helper_failure_witness :
  process_query needs_template "alice" () "what?" None "" [] = (Raise AttributeError, []).
Proof. apply (process_query_helper_failure needs_template). reflexivity. Defined.

(** X19. In the context mode the exception of the pruning helper (the
    [ValueError] of the docstring, or any other) leaves the function as
    it is, and the model receives no call. *)
Theorem context_query_helper_failure E user_id app_config query ctx_limit scope_type
    scope_list template end_separator db docs chunks e log :
  load E = Return db →
  get_context_docs E user_id query db ctx_limit scope_type scope_list = Return docs →
  get_context_chunks E docs = Return chunks →
  get_pruned_query E app_config query (Some (template_or_default template)) chunks
  = Raise e →
  docs ≠ [] →
  process_context_query E user_id app_config query ctx_limit scope_type scope_list
    template end_separator log
  = (Raise e, log).
Proof.
  intros Hload Hdocs Hchunks Hprompt Hne. unfold process_context_query. chain.
  rewrite Hload, Hdocs. destruct docs; [done|]. simpl. by rewrite Hchunks, Hprompt.
Qed.

Lemma context_query_helper_failure_witness :
  process_context_query (too_small three_docs) "alice" () "what?" 20 None None None "" []
  = (Raise (ValueError "Context length is too small"), []).
Proof.
  apply (context_query_helper_failure (too_small three_docs) "alice" () "what?" 20 None
           None None "" () three_docs ["alpha"; "beta"; "gamma"]);
    (reflexivity || discriminate).
Defined.

(** X20. An exception of the model is not caught: in either mode the
    function raises it, after exactly the one call that failed. *)
Theorem model_failure_propagates E user_id app_config query ctx_limit scope_type
    scope_list template end_separator e log :
  (∀ prompt,
     get_pruned_query E app_config query template [] = Return prompt →
     let call := {| call_prompt := match template with Some _ => prompt | None => query end;
                    call_stop := if is_empty end_separator then None
                                 else Some [end_separator];
                    call_userid := user_id |} in
     llm_invoke E call = Raise e →
     process_query E user_id app_config query template end_separator log
     = (Raise e, log ++ [call]))
  ∧ (∀ db docs chunks prompt,
       load E = Return db →
       get_context_docs E user_id query db ctx_limit scope_type scope_list = Return docs →
       docs ≠ [] →
       get_context_chunks E docs = Return chunks →
       get_pruned_query E app_config query (Some (template_or_default template)) chunks
       = Return prompt →
       let call := {| call_prompt := prompt; call_stop := Some [end_separator];
                      call_userid := user_id |} in
       llm_invoke E call = Raise e →
       process_context_query E user_id app_config query ctx_limit scope_type scope_list
         template end_separator log
       = (Raise e, log ++ [call])).
Proof.
  split.
  - intros prompt Hprompt call Hcall. unfold process_query. chain. rewrite Hprompt.
    subst call. destruct (is_empty end_separator); simpl in *; by rewrite Hcall.
  - intros db docs chunks prompt Hload Hdocs Hne Hchunks Hprompt call Hcall.
    unfold process_context_query. chain. rewrite Hload, Hdocs.
    destruct docs; [done|]. simpl. rewrite Hchunks, Hprompt. subst call. by rewrite Hcall.
Qed.

Lemma model_failure_propagates_witness :
  process_query failing_model "alice" () "what?" None "" []
  = (Raise (OtherError "TimeoutError"),
     [] ++ [{| call_prompt := "what?"; call_stop := None; call_userid := "alice" |}]).
Proof.
  apply (proj1 (model_failure_propagates failing_model "alice" () "what?" 20 None None
                  None "" (OtherError "TimeoutError") []) "what?");
    reflexivity.
Defined.

(** X21. An answer of either mode has its output stripped: it neither
    begins nor ends with white space, and stripping it again changes
    nothing; the plain mode answers without sources. *)
Theorem outputs_are_stripped E user_id app_config query ctx_limit scope_type scope_list
    template end_separator log :
  let clean (s : string) :=
    strip s = s
    ∧ (∀ c, first_char s = Some c → is_space c = false)
    ∧ (∀ c, last_char s = Some c → is_space c = false) in
  (∀ out, (process_query E user_id app_config query template end_separator log).1
          = Return out → clean (output out) ∧ sources out = [])
  ∧ (∀ out, (process_context_query E user_id app_config query ctx_limit scope_type
               scope_list template end_separator log).1
            = Return out → clean (output out)).
Proof.
  simpl. split; intros out.
  - unfold process_query. chain.
    destruct (get_pruned_query E _ _ _ _) as [prompt|e]; [|done].
    destruct (llm_invoke E _) as [answer|e]; [|done].
    intros [= <-]. simpl. destruct (strip_clean answer) as (? & ? & ?). by split_and!.
  - unfold process_context_query. chain.
    destruct (load E) as [db|e]; [|done].
    destruct (get_context_docs E _ _ _ _ _ _) as [[|d docs]|e]; try done. simpl.
    destruct (get_context_chunks E _) as [chunks|e]; [|done].
    destruct (get_pruned_query E _ _ _ _) as [prompt|e]; [|done].
    destruct (llm_invoke E _) as [answer|e]; [|done].
    intros [= <-]. simpl. destruct (strip_clean answer) as (? & ? & ?). by split_and!.
Qed.

(** X22. Every call of the model carries the user id of the caller; a
    run makes at most one call, and exactly one when it answers. *)
Theorem one_call_for_the_caller E user_id app_config query ctx_limit scope_type scope_list
    template end_separator log :
  (∃ calls,
     (process_query E user_id app_config query template end_separator log).2
     = log ++ calls
     ∧ length calls ≤ 1
     ∧ Forall (λ call, call_userid call = user_id) calls
     ∧ (∀ out, (process_query E user_id app_config query template end_separator log).1
               = Return out → length calls = 1))
  ∧ (∃ calls,
       (process_context_query E user_id app_config query ctx_limit scope_type scope_list
          template end_separator log).2 = log ++ calls
       ∧ length calls ≤ 1
       ∧ Forall (λ call, call_userid call = user_id) calls
       ∧ (∀ out, (process_context_query E user_id app_config query ctx_limit scope_type
                    scope_list template end_separator log).1
                 = Return out → length calls = 1)).
Proof.
  assert (∀ l : list invocation, l = l ++ []) as Hnil by (intros; by rewrite app_nil_r).
  split.
  - unfold process_query. chain.
    destruct (get_pruned_query E _ _ _ _) as [prompt|e];
      [|exists []; split_and!; [apply Hnil|simpl; lia|constructor|done]].
    eexists [_]. split; [by destruct (llm_invoke E _)|].
    split_and!; [simpl; lia|by repeat constructor|done].
  - unfold process_context_query. chain.
    destruct (load E) as [db|e];
      [|exists []; split_and!; [apply Hnil|simpl; lia|constructor|done]].
    destruct (get_context_docs E _ _ _ _ _ _) as [[|d docs]|e]; simpl;
      try (exists []; split_and!; [apply Hnil|simpl; lia|constructor|done]).
    destruct (get_context_chunks E _) as [chunks|e];
      [|exists []; split_and!; [apply Hnil|simpl; lia|constructor|done]].
    destruct (get_pruned_query E _ _ _ _) as [prompt|e];
      [|exists []; split_and!; [apply Hnil|simpl; lia|constructor|done]].
    eexists [_]. split; [by destruct (llm_invoke E _)|].
    split_and!; [simpl; lia|by repeat constructor|done].
Qed.

Lemma omap_length_le {A B} (f : A → option B) (l : list A) :
  length (omap f l) ≤ length l.
Proof. induction l as [|x l IH]; csimpl; [done|]. destruct (f x); csimpl; lia. Qed.

(** X23. The sources of the answer do not depend on the order of the
    retrieved documents, and there are never more of them than
    documents. *)
Theorem sources_ignore_order docs docs' :
  docs ≡ₚ docs' →
  unique_sources docs ≡ₚ unique_sources docs'
  ∧ length (unique_sources docs) ≤ length docs.
Proof.
  intros Hperm. split.
  - apply NoDup_Permutation;
      [apply (proj1 (unique_sources_spec docs))|apply (proj1 (unique_sources_spec docs'))|].
    intros s. rewrite !(proj2 (unique_sources_spec _)).
    by setoid_rewrite Hperm.
  - etrans; [|apply (omap_length_le truthy_source)].
    apply NoDup_incl_length; [apply NoDup_ListNoDup, (proj1 (unique_sources_spec docs))|].
    intros s Hs. apply list_elem_of_In in Hs. apply list_elem_of_In.
    unfold unique_sources in Hs. by rewrite elem_of_elements, elem_of_list_to_set in Hs.
Qed.

Lemma sources_ignore_order_witness :
  unique_sources three_docs ≡ₚ unique_sources (reverse three_docs)
  ∧ length (unique_sources three_docs) ≤ length three_docs.
Proof. apply sources_ignore_order. symmetry. apply reverse_Permutation. Defined.

End ChainTheorems.

(** ** The model loader *)

Section LoaderTheorems.
Import PyText CTransformer.

Lemma assoc_dict_set_eq k v d : assoc k (dict_set k v d) = Some v.
Proof.
  induction d as [|[k' v'] d IH]; simpl; [by rewrite String.eqb_refl|].
  destruct (String.eqb k k') eqn:Hk; simpl; by rewrite Hk.
Qed.

Lemma assoc_dict_set_ne k k' v d : k' ≠ k → assoc k' (dict_set k v d) = assoc k' d.
Proof.
  intros Hne. induction d as [|[k2 v2] d IH]; simpl.
  - by rewrite (proj2 (String.eqb_neq k' k) Hne).
  - destruct (String.eqb k k2) eqn:Hk; simpl; [|by rewrite IH].
    apply String.eqb_eq in Hk as <-. by rewrite (proj2 (String.eqb_neq k' k) Hne).
Qed.

Lemma dict_set_keys k v d :
  List.map fst (dict_set k v d)
  = match assoc k d with
    | Some _ => List.map fst d
    | None => List.map fst d ++ [k]
    end.
Proof.
  induction d as [|[k' v'] d IH]; simpl; [done|].
  destruct (String.eqb k k') eqn:Hk; simpl; [done|]. rewrite IH. by destruct (assoc k d).
Qed.

(** X24. The loader fails before it looks at the model type: a config
    that is [None] raises [AttributeError] (the later test for [None] is
    never reached), and a [model] entry that is not a string raises
    [TypeError] from the path join. *)
Theorem get_model_for_errors MODEL_DIR model_type model_config :
  (model_config = None →
   get_model_for MODEL_DIR model_type model_config = Raise AttributeError)
  ∧ (∀ d v, model_config = Some d → assoc "model" d = Some v → (∀ s, v ≠ JStr s) →
       get_model_for MODEL_DIR model_type model_config = Raise (OtherError "TypeError")).
Proof.
  split.
  - by intros ->.
  - intros d v -> Hv Hns. unfold get_model_for, config_get, config_get_or_empty.
    unfold mbind, result_bind. simpl. rewrite Hv. simpl.
    destruct v; try done. by destruct (Hns s).
Qed.

(** X25. The loader returns [None] exactly for a model type other than
    [llm], on a config dict whose [model] entry is missing or a
    string. *)
Theorem get_model_for_none MODEL_DIR model_type model_config :
  get_model_for MODEL_DIR model_type model_config = Return None
  ↔ model_type ≠ "llm"
    ∧ ∃ d, model_config = Some d
           ∧ (assoc "model" d = None ∨ ∃ s, assoc "model" d = Some (JStr s)).
Proof.
  unfold get_model_for, config_get, config_get_or_empty, mbind, result_bind.
  destruct model_config as [d|]; simpl; [|split; [done|intros (_ & d & Hd & _); done]].
  assert (∀ P : list (string * json) → Prop, (∃ d', Some d = Some d' ∧ P d') ↔ P d) as Hex.
  { intros P. split; [by intros (d' & [= <-] & ?)|intros ?; by exists d]. }
  rewrite (Hex (λ d', assoc "model" d' = None ∨ ∃ s, assoc "model" d' = Some (JStr s))).
  clear Hex.
  destruct (assoc "model" d) as [v|] eqn:Hv; simpl.
  - destruct v; simpl;
      try (split; [done|intros (_ & [?|(? & ?)]); done]).
    destruct (String.eqb model_type "llm") eqn:Hty; simpl.
    + apply String.eqb_eq in Hty. split; [done|]. by intros [? _].
    + apply String.eqb_neq in Hty. split; [|done]. intros _. split; [done|].
      right. by eexists.
  - destruct (String.eqb model_type "llm") eqn:Hty; simpl.
    + apply String.eqb_eq in Hty. split; [done|]. by intros [? _].
    + apply String.eqb_neq in Hty. split; [|done]. intros _. split; [done|]. by left.
Qed.

(** X26. For the type [llm] and a config with a [model] string, the
    loader builds the model from the same keyword arguments, in the same
    order, with [model] replaced by the resolved path: the string itself
    when it is absolute, whatever [MODEL_DIR] says, and otherwise the
    string joined to [MODEL_DIR], or to [persistent_storage/model_files]
    when that variable is not set. *)
Theorem llm_model_path MODEL_DIR d m :
  assoc "model" d = Some (JStr m) →
  ∃ kwargs,
    get_model_for MODEL_DIR "llm" (Some d) = Return (Some (CTransformers kwargs))
    ∧ assoc "model" kwargs
      = Some (JStr (if startswith_char "/" m then m
                    else path_join (default "persistent_storage/model_files" MODEL_DIR) m))
    ∧ (∀ k, k ≠ "model" → assoc k kwargs = assoc k d)
    ∧ List.map fst kwargs = List.map fst d.
Proof.
  intros Hm. unfold get_model_for, config_get, config_get_or_empty, mbind, result_bind.
  simpl. unfold dict_get. rewrite Hm. simpl. eexists. split; [done|]. split_and!.
  - rewrite assoc_dict_set_eq. do 2 f_equal. unfold path_join.
    by destruct (startswith_char "/" m).
  - intros k Hk. by apply assoc_dict_set_ne.
  - by rewrite dict_set_keys, Hm.
Qed.

Lemma llm_model_path_witness :
  ∃ kwargs,
    get_model_for (Some "/srv/models") "llm"
      (Some [("model", JStr "llama.gguf"); ("max_new_tokens", JInt 256)])
    = Return (Some (CTransformers kwargs))
    ∧ assoc "model" kwargs
      = Some (JStr (if startswith_char "/" "llama.gguf" then "llama.gguf"
                    else path_join (default "persistent_storage/model_files"
                                      (Some "/srv/models")) "llama.gguf"))
    ∧ (∀ k, k ≠ "model"
            → assoc k kwargs
              = assoc k [("model", JStr "llama.gguf"); ("max_new_tokens", JInt 256)])
    ∧ List.map fst kwargs
      = List.map fst [("model", JStr "llama.gguf"); ("max_new_tokens", JInt 256)].
Proof. apply llm_model_path. reflexivity. Defined.

End LoaderTheorems.
